(** * Meal-plan tool adapters of the Mealie MCP server

    A shallow embedding of [src/tools/mealplan_tools.py]: the four tools
    registered by [register_mealplan_tools] ([get_all_mealplans],
    [create_mealplan], [create_mealplan_bulk], [get_todays_mealplan]), the
    Python values they pass around, the [json] encoder and decoder they
    rely on with the limits the interpreter puts on them, and the backend
    fetcher seen as an arbitrary object that answers method calls. *)

From Stdlib Require Import List NArith ZArith Bool Lia String Ascii.
From Stdlib Require Decimal DecimalN DecimalPos DecimalFacts.
Import ListNotations.

Set Warnings "-register-all".

Local Open Scope N_scope.

(** ** Python strings *)

(** A Python [str] is a sequence of code points. *)
Definition pystr := list N.

(** The [str] written by an ASCII literal of the source. *)
Definition py (s : string) : pystr := map N_of_ascii (list_ascii_of_string s).

Definition pystr_eqb (a b : pystr) : bool :=
  if list_eq_dec N.eq_dec a b then true else false.

(** ** Python values *)

(** A [float], told by what [float.__repr__] writes of it: a sign, the
    number before the point, the digits after the point ([Nil] when the
    text has no point) and the exponent ([None] when the text has none);
    or an infinity; or a NaN.  Two floats are the same float when they are
    written the same.  Which texts are written for a float of the
    interpreter, and which float a text is read as, is floating-point
    arithmetic: it is left to [parse_float] below. *)
Inductive pyfloat : Type :=
| Finite (negative : bool) (int_part : N) (frac : Decimal.uint) (exponent : option Z)
| Infinite (negative : bool)
| NaN.

Definition pyfloat_eq_dec (a b : pyfloat) : {a = b} + {a <> b}.
Proof.
  decide equality.
  - decide equality. apply Z.eq_dec.
  - apply Decimal.uint_eq_dec.
  - apply N.eq_dec.
  - apply Bool.bool_dec.
  - apply Bool.bool_dec.
Defined.

Definition pyfloat_eqb (a b : pyfloat) : bool :=
  if pyfloat_eq_dec a b then true else false.

(** The values that travel between the tools, the fetcher and [json]:
    [None], [bool], [int], [float], [str], [list], [dict] keyed by [str],
    and [PyObject], an instance of some other class (named by its type
    name), for which [json] has no encoding.  A [dict] keeps its insertion
    order. *)
Inductive pyval : Type :=
| PyNone
| PyBool (b : bool)
| PyInt (z : Z)
| PyFloat (f : pyfloat)
| PyStr (s : pystr)
| PyList (l : list pyval)
| PyDict (d : list (pystr * pyval))
| PyObject (type_name : pystr).

(** [Optional[str]] and [Optional[int]] arguments as Python values. *)
Definition of_optional_str (o : option pystr) : pyval :=
  match o with Some s => PyStr s | None => PyNone end.

Definition of_optional_int (o : option Z) : pyval :=
  match o with Some z => PyInt z | None => PyNone end.

(** [d.get(k)] on an insertion-ordered dict. *)
Fixpoint dict_get {V : Type} (k : pystr) (d : list (pystr * V)) : option V :=
  match d with
  | [] => None
  | (k', v) :: d' => if pystr_eqb k k' then Some v else dict_get k d'
  end.

(** [d[k] = v]: overwrite in place when the key exists, append otherwise. *)
Fixpoint dict_set {V : Type} (k : pystr) (v : V) (d : list (pystr * V))
  : list (pystr * V) :=
  match d with
  | [] => [(k, v)]
  | (k', v') :: d' =>
      if pystr_eqb k k' then (k', v) :: d' else (k', v') :: dict_set k v d'
  end.

(** [dict(pairs)]. *)
Definition dict_of_pairs {V : Type} (pairs : list (pystr * V)) : list (pystr * V) :=
  fold_left (fun d kv => dict_set (fst kv) (snd kv) d) pairs [].

(** ** Exceptions *)

(** The classes of exception the model tells apart.  [KeyboardInterrupt],
    [SystemExit] and [GeneratorExit] derive from [BaseException] and not
    from [Exception]; [BaseExceptionSubclass] is any other class that does
    not derive from [Exception] ([asyncio.CancelledError], a class of the
    fetcher's own).  [TypeError], [ValueError] and [RecursionError] derive
    from [Exception]; [ExceptionSubclass] is any other class that does. *)
Inductive exc_type : Type :=
| KeyboardInterrupt
| SystemExit
| GeneratorExit
| BaseExceptionSubclass (name : string)
| TypeError
| ValueError
| RecursionError
| ExceptionSubclass (name : string).

(** [isinstance(e, Exception)]. *)
Definition is_Exception (t : exc_type) : bool :=
  match t with
  | KeyboardInterrupt | SystemExit | GeneratorExit | BaseExceptionSubclass _ => false
  | TypeError | ValueError | RecursionError | ExceptionSubclass _ => true
  end.

(** A raised exception: its class, and what [str(e)] does.  For [mkExn] it
    returns the message; for [Unprintable] the [__str__] of the class
    fails, and [str(e)] raises another exception. *)
Inductive exn : Type :=
| mkExn (type : exc_type) (message : pystr)
| Unprintable (type : exc_type) (raised : exn).

Definition exn_type (e : exn) : exc_type :=
  match e with
  | mkExn t _ | Unprintable t _ => t
  end.

Inductive outcome (A : Type) : Type :=
| Return (a : A)
| Raise (e : exn).
Arguments Return {A} a.
Arguments Raise {A} e.

(** [str(e)]. *)
Definition str (e : exn) : outcome pystr :=
  match e with
  | mkExn _ m => Return m
  | Unprintable _ e' => Raise e'
  end.

(** ** The interpreter *)

(** What the tools and [json] take from the interpreter they run in:
    - [format_exc]: [traceback.format_exc()] inside the handler of the
      exception given;
    - [int_max_str_digits]: [sys.get_int_max_str_digits()], 4300 unless set
      otherwise, 0 for no limit ([sys.set_int_max_str_digits] accepts 0 and
      the numbers from 640 on);
    - [encoder_depth] and [decoder_depth]: how many containers, nested in
      one another inside the outermost one, [json.dumps] and [json.loads]
      may enter before the recursion limit is reached.  The tools are
      taken to run with room on the stack for their own calls and for the
      outermost container;
    - [parse_float]: [float] on the text of a JSON number that has a
      fraction or an exponent; [None] where what [float] answers is left
      open, and the decoder then gives no answer. *)
Record interpreter : Type := mkInterpreter {
  format_exc : exn -> pystr;
  int_max_str_digits : nat;
  encoder_depth : nat;
  decoder_depth : nat;
  parse_float : pystr -> option pyfloat
}.

(** Whether a number of [digits] is over the limit on conversions between
    [int] and [str]. *)
Definition exceeds_limit (python : interpreter) (digits : nat) : bool :=
  negb (Nat.eqb (int_max_str_digits python) 0)
  && Nat.ltb (int_max_str_digits python) digits.

(** ** [json.dumps] (default options: [ensure_ascii], separators [", "]
    and [": "]) *)

Definition hexdigit (d : N) : N := if d <? 10 then 48 + d else 87 + d.

(** ['{0:04x}'.format(n)], used for [n < 0x10000]. *)
Definition format_04x (n : N) : pystr :=
  [hexdigit (n / 4096); hexdigit ((n / 256) mod 16);
   hexdigit ((n / 16) mod 16); hexdigit (n mod 16)].

(** The replacement of one character matched by [ESCAPE_ASCII]
    ([py_encode_basestring_ascii.replace]); characters from space to [~]
    other than the quote and the backslash are not matched and stay. *)
Definition escape_char (c : N) : pystr :=
  if c =? 92 then [92; 92]
  else if c =? 34 then [92; 34]
  else if c =? 8 then [92; 98]
  else if c =? 12 then [92; 102]
  else if c =? 10 then [92; 110]
  else if c =? 13 then [92; 114]
  else if c =? 9 then [92; 116]
  else if (32 <=? c) && (c <=? 126) then [c]
  else if c <? 65536 then 92 :: 117 :: format_04x c
  else
    let n := c - 65536 in
    let s1 := N.lor 55296 (N.land (N.shiftr n 10) 1023) in
    let s2 := N.lor 56320 (N.land n 1023) in
    (92 :: 117 :: format_04x s1) ++ (92 :: 117 :: format_04x s2).

Definition encode_basestring_ascii (s : pystr) : pystr :=
  34 :: flat_map escape_char s ++ [34].

Fixpoint uint_chars (u : Decimal.uint) : pystr :=
  match u with
  | Decimal.Nil => []
  | Decimal.D0 u => 48 :: uint_chars u
  | Decimal.D1 u => 49 :: uint_chars u
  | Decimal.D2 u => 50 :: uint_chars u
  | Decimal.D3 u => 51 :: uint_chars u
  | Decimal.D4 u => 52 :: uint_chars u
  | Decimal.D5 u => 53 :: uint_chars u
  | Decimal.D6 u => 54 :: uint_chars u
  | Decimal.D7 u => 55 :: uint_chars u
  | Decimal.D8 u => 56 :: uint_chars u
  | Decimal.D9 u => 57 :: uint_chars u
  end.

(** [int.__repr__]. *)
Definition int_repr (z : Z) : pystr :=
  match z with
  | Z0 => [48]
  | Zpos p => uint_chars (N.to_uint (Npos p))
  | Zneg p => 45 :: uint_chars (N.to_uint (Npos p))
  end.

(** The number of decimal digits of an integer, the sign left out. *)
Definition int_digits (z : Z) : nat := Decimal.nb_digits (N.to_uint (Z.abs_N z)).

(** The exponent as [float.__repr__] writes it: a sign, and two digits at
    least. *)
Definition exponent_repr (z : Z) : pystr :=
  101 :: (if (z <? 0)%Z then 45 else 43)
      :: match uint_chars (N.to_uint (Z.abs_N z)) with
         | [d] => [48; d]
         | digits => digits
         end.

(** [float.__repr__]. *)
Definition float_repr (f : pyfloat) : pystr :=
  match f with
  | Finite negative int_part frac exponent =>
      (if negative then [45] else [])
      ++ uint_chars (N.to_uint int_part)
      ++ match frac with
         | Decimal.Nil => []
         | _ => 46 :: uint_chars frac
         end
      ++ match exponent with
         | Some z => exponent_repr z
         | None => []
         end
  | Infinite false => py "inf"
  | Infinite true => py "-inf"
  | NaN => py "nan"
  end.

(** [floatstr] of [json.encoder], with [allow_nan] at its default. *)
Definition floatstr (f : pyfloat) : pystr :=
  match f with
  | Finite _ _ _ _ => float_repr f
  | Infinite false => py "Infinity"
  | Infinite true => py "-Infinity"
  | NaN => py "NaN"
  end.

(** The default separators. *)
Definition item_separator : pystr := py ", ".
Definition key_separator : pystr := py ": ".

(** [item_separator.join(chunks)]. *)
Fixpoint join (sep : pystr) (chunks : list pystr) : pystr :=
  match chunks with
  | [] => []
  | [c] => c
  | c :: rest => c ++ sep ++ join sep rest
  end.

(** The three exceptions of the encoder: an object with no JSON encoding,
    an integer with more digits than the interpreter converts, containers
    nested deeper than the recursion limit allows. *)
Definition not_serializable (type_name : pystr) : exn :=
  mkExn TypeError
    (py "Object of type " ++ type_name ++ py " is not JSON serializable").

Definition exceeds_the_limit (python : interpreter) : exn :=
  mkExn ValueError
    (py "Exceeds the limit (" ++ uint_chars (Nat.to_uint (int_max_str_digits python))
     ++ py " digits) for integer string conversion; use sys.set_int_max_str_digits() to increase the limit").

Definition recursion_depth_exceeded : exn :=
  mkExn RecursionError (py "maximum recursion depth exceeded while encoding a JSON object").

(** Encoding the chunks of a container, left to right, stopping at the
    first element that raises. *)
Fixpoint encode_items {A : Type} (enc : A -> outcome pystr) (l : list A)
  : outcome (list pystr) :=
  match l with
  | [] => Return []
  | x :: l' =>
      match enc x with
      | Raise e => Raise e
      | Return c =>
          match encode_items enc l' with
          | Raise e => Raise e
          | Return cs => Return (c :: cs)
          end
      end
  end.

(** The encoder, with [depth] containers left to enter.  It raises at the
    first value, in traversal order, that it cannot write: [TypeError] on
    an object, [ValueError] on an integer over the digit limit,
    [RecursionError] on a list or dict met with no depth left. *)
Fixpoint json_encode (python : interpreter) (v : pyval) (depth : nat) {struct v}
  : outcome pystr :=
  match v with
  | PyNone => Return (py "null")
  | PyBool true => Return (py "true")
  | PyBool false => Return (py "false")
  | PyInt z =>
      if exceeds_limit python (int_digits z) then Raise (exceeds_the_limit python)
      else Return (int_repr z)
  | PyFloat f => Return (floatstr f)
  | PyStr s => Return (encode_basestring_ascii s)
  | PyList l =>
      match depth with
      | O => Raise recursion_depth_exceeded
      | S depth' =>
          match encode_items (fun x => json_encode python x depth') l with
          | Raise e => Raise e
          | Return cs => Return (91 :: join item_separator cs ++ [93])
          end
      end
  | PyDict d =>
      match depth with
      | O => Raise recursion_depth_exceeded
      | S depth' =>
          match
            encode_items
              (fun kv =>
                 match kv with
                 | (k, x) =>
                     match json_encode python x depth' with
                     | Raise e => Raise e
                     | Return c =>
                         Return (encode_basestring_ascii k ++ key_separator ++ c)
                     end
                 end) d
          with
          | Raise e => Raise e
          | Return cs => Return (123 :: join item_separator cs ++ [125])
          end
      end
  | PyObject t => Raise (not_serializable t)
  end.

(** [json.dumps]: the outermost container can be entered, and
    [encoder_depth] more inside it. *)
Definition json_dumps (python : interpreter) (v : pyval) : outcome pystr :=
  json_encode python v (S (encoder_depth python)).

(** ** [json.loads] *)

(** The decoder, as the scanner written in C reads the text.  It answers
    [None] where Python raises: [JSONDecodeError] on text that is not JSON,
    [ValueError] on an integer over the digit limit, [RecursionError] on
    containers nested deeper than the recursion limit allows; and on a
    float whose text [parse_float] leaves open. *)

Definition is_ws (c : N) : bool :=
  (c =? 32) || (c =? 9) || (c =? 10) || (c =? 13).

Fixpoint skip_ws (s : pystr) : pystr :=
  match s with
  | c :: r => if is_ws c then skip_ws r else s
  | [] => []
  end.

Definition hexval (c : N) : option N :=
  if (48 <=? c) && (c <=? 57) then Some (c - 48)
  else if (97 <=? c) && (c <=? 102) then Some (c - 87)
  else if (65 <=? c) && (c <=? 70) then Some (c - 55)
  else None.

(** [_decode_uXXXX]: four hexadecimal digits, read in base 16. *)
Definition decode_uXXXX (h1 h2 h3 h4 : N) : option N :=
  match hexval h1, hexval h2, hexval h3, hexval h4 with
  | Some a, Some b, Some c, Some d => Some (4096 * a + 256 * b + 16 * c + d)
  | _, _, _, _ => None
  end.

(** The [BACKSLASH] table. *)
Definition backslash (esc : N) : option N :=
  if esc =? 34 then Some 34
  else if esc =? 92 then Some 92
  else if esc =? 47 then Some 47
  else if esc =? 98 then Some 8
  else if esc =? 102 then Some 12
  else if esc =? 110 then Some 10
  else if esc =? 114 then Some 13
  else if esc =? 116 then Some 9
  else None.

Definition is_high_surrogate (u : N) : bool := (55296 <=? u) && (u <=? 56319).
Definition is_low_surrogate (u : N) : bool := (56320 <=? u) && (u <=? 57343).

Definition prepend (c : N) (r : option (pystr * pystr)) : option (pystr * pystr) :=
  match r with
  | Some (chars, rest) => Some (c :: chars, rest)
  | None => None
  end.

(** [py_scanstring] in strict mode, entered just after the opening quote:
    the decoded string and the text after the closing quote. *)
Fixpoint scanstring (s : pystr) : option (pystr * pystr) :=
  match s with
  | [] => None
  | c :: r =>
      if c =? 34 then Some ([], r)
      else if c =? 92 then
        match r with
        | [] => None
        | esc :: r1 =>
            if esc =? 117 then
              match r1 with
              | h1 :: h2 :: h3 :: h4 :: r2 =>
                  match decode_uXXXX h1 h2 h3 h4 with
                  | None => None
                  | Some uni =>
                      if is_high_surrogate uni then
                        match r2 with
                        | b :: u :: r3 =>
                            if (b =? 92) && (u =? 117) then
                              match r3 with
                              | k1 :: k2 :: k3 :: k4 :: r4 =>
                                  match decode_uXXXX k1 k2 k3 k4 with
                                  | None => None
                                  | Some uni2 =>
                                      if is_low_surrogate uni2 then
                                        prepend
                                          (65536 +
                                           N.lor (N.shiftl (uni - 55296) 10)
                                                 (uni2 - 56320))
                                          (scanstring r4)
                                      else prepend uni (scanstring r2)
                                  end
                              | _ => None
                              end
                            else prepend uni (scanstring r2)
                        | _ => prepend uni (scanstring r2)
                        end
                      else prepend uni (scanstring r2)
                  end
              | _ => None
              end
            else
              match backslash esc with
              | Some ch => prepend ch (scanstring r1)
              | None => None
              end
        end
      else if c <? 32 then None
      else prepend c (scanstring r)
  end.

Definition is_digit (c : N) : bool := (48 <=? c) && (c <=? 57).

Definition digit_cons (d : N) (u : Decimal.uint) : Decimal.uint :=
  if d =? 0 then Decimal.D0 u else if d =? 1 then Decimal.D1 u else if d =? 2 then Decimal.D2 u
  else if d =? 3 then Decimal.D3 u else if d =? 4 then Decimal.D4 u else if d =? 5 then Decimal.D5 u
  else if d =? 6 then Decimal.D6 u else if d =? 7 then Decimal.D7 u else if d =? 8 then Decimal.D8 u
  else Decimal.D9 u.

(** The longest run of decimal digits at the head of the text. *)
Fixpoint scan_digits (s : pystr) : Decimal.uint * pystr :=
  match s with
  | c :: r =>
      if is_digit c then
        let (u, rest) := scan_digits r in (digit_cons (c - 48) u, rest)
      else (Decimal.Nil, s)
  | [] => (Decimal.Nil, [])
  end.

(** The integer part of [NUMBER_RE]: a lone zero, or a non-zero digit
    followed by any digits. *)
Definition match_integer (s : pystr) : option (Decimal.uint * pystr) :=
  match s with
  | c :: r =>
      if c =? 48 then Some (Decimal.D0 Decimal.Nil, r)
      else if is_digit c then Some (scan_digits s)
      else None
  | [] => None
  end.

(** The fraction of [NUMBER_RE]: a dot and the digits after it, when one
    digit at least follows the dot; the empty text otherwise. *)
Definition scan_frac (r : pystr) : pystr * pystr :=
  match r with
  | c :: d :: _ =>
      if (c =? 46) && is_digit d then
        let (u, rest) := scan_digits (tl r) in (46 :: uint_chars u, rest)
      else ([], r)
  | _ => ([], r)
  end.

(** The exponent of [NUMBER_RE]: [e] or [E], an optional sign and the
    digits after it, when there is one digit at least; the empty text
    otherwise. *)
Definition scan_exp (r : pystr) : pystr * pystr :=
  match r with
  | c :: r1 =>
      if (c =? 101) || (c =? 69) then
        let (sign, r2) :=
          match r1 with
          | d :: r2 => if (d =? 43) || (d =? 45) then ([d], r2) else ([], r1)
          | [] => ([], r1)
          end in
        match scan_digits r2 with
        | (Decimal.Nil, _) => ([], r)
        | (u, rest) => (c :: sign ++ uint_chars u, rest)
        end
      else ([], r)
  | [] => ([], r)
  end.

(** A number: [int] of the integer part when the text has neither fraction
    nor exponent, [float] of the whole matched text otherwise. *)
Definition scan_number (python : interpreter) (s : pystr) : option (pyval * pystr) :=
  let '(neg, s1) :=
    match s with
    | c :: r => if c =? 45 then (true, r) else (false, s)
    | [] => (false, s)
    end in
  match match_integer s1 with
  | None => None
  | Some (u, r) =>
      let (frac, r1) := scan_frac r in
      let (exp, r2) := scan_exp r1 in
      match frac ++ exp with
      | [] =>
          if exceeds_limit python (Decimal.nb_digits u) then None
          else
            let n := Z.of_N (N.of_uint u) in
            Some (PyInt (if neg then (- n)%Z else n), r)
      | _ :: _ =>
          match
            parse_float python
              ((if neg then [45] else []) ++ uint_chars u ++ frac ++ exp)
          with
          | Some f => Some (PyFloat f, r2)
          | None => None
          end
      end
  end.

Fixpoint starts_with (p s : pystr) : option pystr :=
  match p, s with
  | [], _ => Some s
  | a :: p', b :: s' => if a =? b then starts_with p' s' else None
  | _ :: _, [] => None
  end.

(** [scan_once], [JSONArray] and [JSONObject], with [depth] containers
    left to enter.  [parse_values] is entered at the first element of a
    non-empty array, [parse_pairs] just after the opening quote of a key.
    The constants [NaN], [Infinity] and [-Infinity] are tried where no
    number matches; a text on which [scan_number] fails after a match
    starts with a digit, or a minus sign and a digit, so is none of them.
    The recursion of the definition is bounded by [fuel], which [json_loads]
    sets above what a text of its length can use. *)
Fixpoint scan_once (python : interpreter) (fuel depth : nat) (s : pystr)
  : option (pyval * pystr) :=
  match fuel with
  | O => None
  | S f =>
      match s with
      | [] => None
      | c :: r =>
          if c =? 34 then
            match scanstring r with
            | Some (chars, rest) => Some (PyStr chars, rest)
            | None => None
            end
          else if c =? 123 then
            match depth with
            | O => None
            | S depth' =>
                match skip_ws r with
                | c1 :: r1 =>
                    if c1 =? 125 then Some (PyDict [], r1)
                    else if c1 =? 34 then
                      match parse_pairs python f depth' r1 with
                      | Some (pairs, rest) => Some (PyDict (dict_of_pairs pairs), rest)
                      | None => None
                      end
                    else None
                | [] => None
                end
            end
          else if c =? 91 then
            match depth with
            | O => None
            | S depth' =>
                match skip_ws r with
                | c1 :: r1 =>
                    if c1 =? 93 then Some (PyList [], r1)
                    else
                      match parse_values python f depth' (c1 :: r1) with
                      | Some (vs, rest) => Some (PyList vs, rest)
                      | None => None
                      end
                | [] => None
                end
            end
          else
            match starts_with (py "null") s with
            | Some rest => Some (PyNone, rest)
            | None =>
                match starts_with (py "true") s with
                | Some rest => Some (PyBool true, rest)
                | None =>
                    match starts_with (py "false") s with
                    | Some rest => Some (PyBool false, rest)
                    | None =>
                        match scan_number python s with
                        | Some number => Some number
                        | None =>
                            match starts_with (py "NaN") s with
                            | Some rest => Some (PyFloat NaN, rest)
                            | None =>
                                match starts_with (py "Infinity") s with
                                | Some rest => Some (PyFloat (Infinite false), rest)
                                | None =>
                                    match starts_with (py "-Infinity") s with
                                    | Some rest => Some (PyFloat (Infinite true), rest)
                                    | None => None
                                    end
                                end
                            end
                        end
                    end
                end
            end
      end
  end
with parse_values (python : interpreter) (fuel depth : nat) (s : pystr)
  : option (list pyval * pystr) :=
  match fuel with
  | O => None
  | S f =>
      match scan_once python f depth s with
      | None => None
      | Some (v, r) =>
          match skip_ws r with
          | c :: r1 =>
              if c =? 93 then Some ([v], r1)
              else if c =? 44 then
                match parse_values python f depth (skip_ws r1) with
                | Some (vs, rest) => Some (v :: vs, rest)
                | None => None
                end
              else None
          | [] => None
          end
      end
  end
with parse_pairs (python : interpreter) (fuel depth : nat) (s : pystr)
  : option (list (pystr * pyval) * pystr) :=
  match fuel with
  | O => None
  | S f =>
      match scanstring s with
      | None => None
      | Some (key, r) =>
          match skip_ws r with
          | c :: r1 =>
              if c =? 58 then
                match scan_once python f depth (skip_ws r1) with
                | None => None
                | Some (v, r2) =>
                    match skip_ws r2 with
                    | c2 :: r3 =>
                        if c2 =? 125 then Some ([(key, v)], r3)
                        else if c2 =? 44 then
                          match skip_ws r3 with
                          | q :: r4 =>
                              if q =? 34 then
                                match parse_pairs python f depth r4 with
                                | Some (ps, rest) => Some ((key, v) :: ps, rest)
                                | None => None
                                end
                              else None
                          | [] => None
                          end
                        else None
                    | [] => None
                    end
                end
              else None
          | [] => None
          end
      end
  end.

(** [json.loads]: one value between optional whitespace, nothing after.
    The outermost container can be entered, and [decoder_depth] more
    inside it. *)
Definition json_loads (python : interpreter) (s : pystr) : option pyval :=
  match scan_once python (S (List.length s)) (S (decoder_depth python)) (skip_ws s) with
  | Some (v, rest) =>
      match skip_ws rest with
      | [] => Some v
      | _ :: _ => None
      end
  | None => None
  end.

(** ** Values that JSON represents *)

(** A Unicode scalar value: a code point that is not a surrogate. *)
Definition scalar (c : N) : bool :=
  (c <? 55296) || ((57343 <? c) && (c <? 1114112)).

Definition text (s : pystr) : bool := forallb scalar s.

Fixpoint distinct (keys : list pystr) : bool :=
  match keys with
  | [] => true
  | k :: rest => negb (existsb (pystr_eqb k) rest) && distinct rest
  end.

(** A finite float written with a point or an exponent, as
    [float.__repr__] writes every finite float. *)
Definition finite_float (f : pyfloat) : bool :=
  match f with
  | Finite _ _ Decimal.Nil None => false
  | Finite _ _ _ _ => true
  | Infinite _ | NaN => false
  end.

(** The structures JSON represents: [None], booleans, integers, finite
    floats, strings of Unicode scalar values, lists and dicts of such with
    string keys; the keys of a dict are distinct, as in any Python dict. *)
Fixpoint json_representable (v : pyval) : bool :=
  match v with
  | PyNone | PyBool _ | PyInt _ => true
  | PyFloat f => finite_float f
  | PyStr s => text s
  | PyList l => forallb json_representable l
  | PyDict d =>
      forallb (fun kv => match kv with (k, x) => text k && json_representable x end) d
      && distinct (map fst d)
  | PyObject _ => false
  end.

(** How deep the containers of a value nest: 0 for a scalar, 1 for a list
    or dict of scalars, and so on. *)
Fixpoint nesting (v : pyval) : nat :=
  match v with
  | PyList l => S (list_max (map nesting l))
  | PyDict d => S (list_max (map (fun kv => match kv with (_, x) => nesting x end) d))
  | _ => O
  end.

(** The numbers of a value are ones the interpreter converts both ways:
    every [int] has no more digits than the limit, and every [float] is one
    that [float] reads back from the text written for it, as CPython's does
    for every finite float. *)
Fixpoint numbers_convert (python : interpreter) (v : pyval) : bool :=
  match v with
  | PyInt z => negb (exceeds_limit python (int_digits z))
  | PyFloat f =>
      match parse_float python (floatstr f) with
      | Some f' => pyfloat_eqb f' f
      | None => false
      end
  | PyList l => forallb (numbers_convert python) l
  | PyDict d => forallb (fun kv => match kv with (_, x) => numbers_convert python x end) d
  | _ => true
  end.

(** A value within the limits of the interpreter: its numbers convert, and
    its containers nest no deeper than [json.dumps] and [json.loads] may
    enter. *)
Definition within_limits (python : interpreter) (v : pyval) : bool :=
  numbers_convert python v
  && Nat.leb (nesting v) (S (encoder_depth python))
  && Nat.leb (nesting v) (S (decoder_depth python)).

(** ** The backend fetcher, the logger and the state they live in *)

(** A method call as the receiving object sees it: the method's name, the
    positional arguments and the keyword arguments. *)
Record call : Type := mkCall {
  method : string;
  args : list pyval;
  kwargs : list (pystr * pyval)
}.

Inductive level : Type := INFO | ERROR | DEBUG.

(** What a run of a tool can touch: the fetcher's own state, the calls the
    fetcher has received so far (oldest first), and the records the logger
    ["mealie-mcp"] has been handed (oldest first). *)
Record world (S : Type) : Type := mkWorld {
  fetcher : S;
  calls : list call;
  records : list (level * pyval)
}.
Arguments mkWorld {S} fetcher calls records.
Arguments fetcher {S} w.
Arguments calls {S} w.
Arguments records {S} w.

(** The [MealieFetcher] handed to [register_mealplan_tools]: any object
    that, in a state of its own, answers a call by returning a value or by
    raising. *)
Definition MealieFetcher (S : Type) : Type := call -> S -> outcome pyval * S.

(** Computations of the tools: state passing, with Python's exceptions. *)
Definition M (S A : Type) : Type := world S -> outcome A * world S.

Definition ret {S A : Type} (a : A) : M S A := fun w => (Return a, w).

Definition bind {S A B : Type} (m : M S A) (k : A -> M S B) : M S B :=
  fun w =>
    match m w with
    | (Return a, w') => k a w'
    | (Raise e, w') => (Raise e, w')
    end.

(** A pure computation that may raise. *)
Definition lift {S A : Type} (o : outcome A) : M S A := fun w => (o, w).

(** [try: body / except Exception as e: handler(e)]. *)
Definition try_except_Exception {S A : Type}
  (body : M S A) (handler : exn -> M S A) : M S A :=
  fun w =>
    match body w with
    | (Return a, w') => (Return a, w')
    | (Raise e, w') =>
        if is_Exception (exn_type e) then handler e w' else (Raise e, w')
    end.

Declare Scope tool_scope.
Delimit Scope tool_scope with tool.
Notation "x <- m ;; k" := (bind m (fun x => k))
  (at level 61, m at next level, right associativity) : tool_scope.
Notation "m ;; k" := (bind m (fun _ => k))
  (at level 61, right associativity) : tool_scope.

(** [logger.info], [logger.error], [logger.debug]: the record is handed to
    the logger, which returns. *)
Definition logger_log {S : Type} (lvl : level) (msg : pyval) : M S unit :=
  fun w => (Return tt, mkWorld (fetcher w) (calls w) (records w ++ [(lvl, msg)])).

(** [for x in xs: body(x)]. *)
Fixpoint for_each {S A : Type} (xs : list A) (body : A -> M S unit) : M S unit :=
  match xs with
  | [] => ret tt
  | x :: xs' => bind (body x) (fun _ => for_each xs' body)
  end.

(** ** [MealPlanEntry] and the error formatter *)

(** Modelled from the spec: [models.mealplan.MealPlanEntry] is not among
    the sources.  Section 3 of the specification gives its fields: a
    required [date], an optional [recipe_id], an optional [title], and the
    [entry_type] tag, a string. *)
Record MealPlanEntry : Type := mkEntry {
  date : pystr;
  recipe_id : option pystr;
  title : option pystr;
  entry_type : pystr
}.

(** Modelled from the spec: [entry.model_dump()], the entry's fields as a
    dict in declaration order, an absent optional field being [None]. *)
Definition model_dump (entry : MealPlanEntry) : list (pystr * pyval) :=
  [(py "date", PyStr (date entry));
   (py "recipe_id", of_optional_str (recipe_id entry));
   (py "title", of_optional_str (title entry));
   (py "entry_type", PyStr (entry_type entry))].

(** The error envelope as a structure. *)
Definition error_envelope (error_message : pystr) : pyval :=
  PyDict [(py "error", PyStr error_message)].

(** Modelled from the spec: [utils.format_error_response] is not among the
    sources.  Section 6 of the specification makes it the JSON text of an
    object with an [error] field holding the message; the model gives the
    object that field and no other, and writes it as [json.dumps] does. *)
Definition format_error_response (python : interpreter) (error_message : pystr)
  : outcome pystr :=
  json_dumps python (error_envelope error_message).

(** ** The four tools *)

Section Tools.

Context {S : Type}.

(** The fetcher the tools are registered with, and the interpreter they
    run in. *)
Variable mealie : MealieFetcher S.
Variable python : interpreter.

Local Open Scope tool_scope.

(** A method call on [mealie]: the fetcher answers, and the call is
    recorded. *)
Definition invoke (c : call) : M S pyval :=
  fun w =>
    let (r, s') := mealie c (fetcher w) in
    (r, mkWorld s' (calls w ++ [c]) (records w)).

(** The [except Exception as e] block, the same in the four tools up to
    the words [prefix] that the message puts before [str(e)].  It runs
    outside any [try]: what [str(e)] raises leaves the tool. *)
Definition report (prefix : string) (e : exn) : M S pystr :=
  message <- lift (str e) ;;
  let error_msg := py prefix ++ message in
  logger_log ERROR (PyDict [(py "message", PyStr error_msg)]) ;;
  logger_log DEBUG
    (PyDict [(py "message", PyStr (py "Error traceback"));
             (py "traceback", PyStr (format_exc python e))]) ;;
  lift (format_error_response python error_msg).

Definition get_mealplans_call
  (start_date end_date : option pystr) (page per_page : option Z) : call :=
  mkCall "get_mealplans" []
    [(py "start_date", of_optional_str start_date);
     (py "end_date", of_optional_str end_date);
     (py "page", of_optional_int page);
     (py "per_page", of_optional_int per_page)].

Definition get_all_mealplans_body
  (start_date end_date : option pystr) (page per_page : option Z) : M S pystr :=
  logger_log INFO
    (PyDict [(py "message", PyStr (py "Fetching mealplans"));
             (py "start_date", of_optional_str start_date);
             (py "end_date", of_optional_str end_date);
             (py "page", of_optional_int page);
             (py "per_page", of_optional_int per_page)]) ;;
  result <- invoke (get_mealplans_call start_date end_date page per_page) ;;
  lift (json_dumps python result).

Definition get_all_mealplans
  (start_date end_date : option pystr) (page per_page : option Z) : M S pystr :=
  try_except_Exception
    (get_all_mealplans_body start_date end_date page per_page)
    (report "Error fetching mealplans: ").

(** The call [mealie.create_mealplan] with the entries of
    [entry.model_dump()] unpacked as keyword arguments. *)
Definition create_mealplan_call (entry : MealPlanEntry) : call :=
  mkCall "create_mealplan" [] (model_dump entry).

Definition create_mealplan_body (entry : MealPlanEntry) : M S pystr :=
  logger_log INFO
    (PyDict [(py "message", PyStr (py "Creating mealplan entry"));
             (py "entry", PyDict (model_dump entry))]) ;;
  result <- invoke (create_mealplan_call entry) ;;
  lift (json_dumps python result).

Definition create_mealplan (entry : MealPlanEntry) : M S pystr :=
  try_except_Exception
    (create_mealplan_body entry)
    (report "Error creating mealplan entry: ").

Definition bulk_success : pyval :=
  PyDict [(py "message", PyStr (py "Bulk mealplan entries created successfully"))].

Definition create_mealplan_bulk_body (entries : list MealPlanEntry) : M S pystr :=
  logger_log INFO
    (PyDict [(py "message", PyStr (py "Creating bulk mealplan entries"));
             (py "entries_count", PyInt (Z.of_nat (List.length entries)))]) ;;
  for_each entries (fun entry => _ <- invoke (create_mealplan_call entry) ;; ret tt) ;;
  lift (json_dumps python bulk_success).

Definition create_mealplan_bulk (entries : list MealPlanEntry) : M S pystr :=
  try_except_Exception
    (create_mealplan_bulk_body entries)
    (report "Error creating bulk mealplan entries: ").

Definition get_todays_mealplan_call : call :=
  mkCall "get_todays_mealplan" [] [].

Definition get_todays_mealplan_body : M S pystr :=
  logger_log INFO (PyDict [(py "message", PyStr (py "Fetching today's mealplan"))]) ;;
  result <- invoke get_todays_mealplan_call ;;
  lift (json_dumps python result).

Definition get_todays_mealplan : M S pystr :=
  try_except_Exception
    get_todays_mealplan_body
    (report "Error fetching today's mealplan: ").

End Tools.

(** ** The registered tools *)

(** The four tools [register_mealplan_tools] registers, with their
    arguments. *)
Inductive tool : Type :=
| GetAllMealplans (start_date end_date : option pystr) (page per_page : option Z)
| CreateMealplan (entry : MealPlanEntry)
| CreateMealplanBulk (entries : list MealPlanEntry)
| GetTodaysMealplan.

(** Invoking a registered tool. *)
Definition run_tool {S : Type} (mealie : MealieFetcher S) (python : interpreter)
  (t : tool) : M S pystr :=
  match t with
  | GetAllMealplans sd ed pg pp => get_all_mealplans mealie python sd ed pg pp
  | CreateMealplan entry => create_mealplan mealie python entry
  | CreateMealplanBulk entries => create_mealplan_bulk mealie python entries
  | GetTodaysMealplan => get_todays_mealplan mealie python
  end.

(** The [try] block of a registered tool. *)
Definition tool_body {S : Type} (mealie : MealieFetcher S) (python : interpreter)
  (t : tool) : M S pystr :=
  match t with
  | GetAllMealplans sd ed pg pp => get_all_mealplans_body mealie python sd ed pg pp
  | CreateMealplan entry => create_mealplan_body mealie python entry
  | CreateMealplanBulk entries => create_mealplan_bulk_body mealie python entries
  | GetTodaysMealplan => get_todays_mealplan_body mealie python
  end.

(** The loop of the bulk tool. *)
Definition create_each {S : Type} (mealie : MealieFetcher S)
  (entries : list MealPlanEntry) : M S unit :=
  for_each entries
    (fun entry => bind (invoke mealie (create_mealplan_call entry)) (fun _ => ret tt)).

(** ** Fetchers and inputs of the examples *)

(** A fetcher that raises the same exception on any call. *)
Definition raising_fetcher (e : exn) : MealieFetcher unit :=
  fun _ s => (Raise e, s).

(** A fetcher that returns the keyword arguments it was given as the
    created record. *)
Definition echo_fetcher : MealieFetcher unit :=
  fun c s => (Return (PyDict (kwargs c)), s).

(** A fetcher that returns the same value on any call. *)
Definition constant_fetcher (v : pyval) : MealieFetcher unit :=
  fun _ s => (Return v, s).

(** A fetcher that counts the calls it has answered and raises on the call
    numbered [n] (from 0), echoing on the others. *)
Definition failing_at (n : nat) (e : exn) : MealieFetcher nat :=
  fun c k => if Nat.eqb k n then (Raise e, Datatypes.S k)
             else (Return (PyDict (kwargs c)), Datatypes.S k).

(** A fetcher that answers any request with an empty page. *)
Definition empty_page_fetcher : MealieFetcher unit :=
  constant_fetcher (PyDict [(py "items", PyList []); (py "page", PyInt (-3))]).

(** A [traceback.format_exc] that yields the empty text. *)
Definition no_traceback : exn -> pystr := fun _ => [].

(** The digits of a number's text that count: from the first that is not a
    zero to the last that is not. *)
Fixpoint drop_zeros (digits : pystr) : pystr :=
  match digits with
  | c :: r => if c =? 48 then drop_zeros r else digits
  | [] => []
  end.

Definition significant (digits : pystr) : pystr :=
  rev (drop_zeros (rev (drop_zeros digits))).

(** The texts of at most fifteen significant digits that [float.__repr__]
    writes for floats in the normal range: with a point and no exponent
    from [0.0001] to below [1e16], the digits after the point ending in no
    zero unless they are the single [0]; with an exponent, of at most
    three hundred in size, elsewhere, one digit that is not zero before the
    point and no closing zero after it. *)
Definition short_repr (f : pyfloat) : bool :=
  match f with
  | Finite _ i frac None =>
      let before := uint_chars (N.to_uint i) in
      let after := uint_chars frac in
      negb (pystr_eqb after [])
      && Nat.leb (List.length (significant (before ++ after))) 15
      && (pystr_eqb after [48] || negb (last after 48 =? 48))
      && (if i =? 0
          then pystr_eqb after [48]
               || Nat.leb (List.length after - List.length (drop_zeros after)) 3
          else Nat.leb (List.length before) 16)
  | Finite _ i frac (Some z) =>
      let after := uint_chars frac in
      (1 <=? i) && (i <=? 9)
      && negb (last after 49 =? 48)
      && Nat.leb (List.length after) 14
      && ((z <=? -5) || (16 <=? z))%Z
      && ((-300 <=? z) && (z <=? 300))%Z
  | Infinite _ | NaN => false
  end.

(** A sign, a number, a point and digits, an exponent [e] with its sign
    and digits: the float written with these. *)
Definition float_of_literal (s : pystr) : option pyfloat :=
  let '(neg, s1) :=
    match s with
    | c :: r => if c =? 45 then (true, r) else (false, s)
    | [] => (false, s)
    end in
  match match_integer s1 with
  | None => None
  | Some (u, r) =>
      let '(frac, r1) :=
        match r with
        | c :: r' => if c =? 46 then scan_digits r' else (Decimal.Nil, r)
        | [] => (Decimal.Nil, r)
        end in
      match r1 with
      | [] => Some (Finite neg (N.of_uint u) frac None)
      | e :: sign :: r2 =>
          match scan_digits r2 with
          | (digits, []) =>
              let z := Z.of_N (N.of_uint digits) in
              if negb (e =? 101) then None
              else if sign =? 43 then Some (Finite neg (N.of_uint u) frac (Some z))
              else if sign =? 45 then Some (Finite neg (N.of_uint u) frac (Some (- z)%Z))
              else None
          | (_, _ :: _) => None
          end
      | [_] => None
      end
  end.

(** A [float] known on the texts of [short_repr], each read as the float
    that is written with it, and left open on every other text. *)
Definition read_short_float (s : pystr) : option pyfloat :=
  match float_of_literal s with
  | Some f => if short_repr f && pystr_eqb (floatstr f) s then Some f else None
  | None => None
  end.

(** An interpreter with the default limit of 4300 digits, room for 900
    containers inside the outermost one, no text for the traceback, and
    the floats of [read_short_float]. *)
Definition python3 : interpreter :=
  mkInterpreter no_traceback 4300 900 900 read_short_float.

(** The state before any call and any log record. *)
Definition fresh {S : Type} (s : S) : world S := mkWorld s [] [].

(** An error of the HTTP client, an interrupt, a cancellation
    ([asyncio.CancelledError] derives from [BaseException] only), and an
    error whose [__str__] returns [None], so that [str] raises on it. *)
Definition connection_refused : exn :=
  mkExn (ExceptionSubclass "ConnectionError") (py "connection refused").

Definition interrupted : exn := mkExn KeyboardInterrupt [].

Definition cancelled : exn := mkExn (BaseExceptionSubclass "CancelledError") [].

Definition str_returned_non_string : exn :=
  mkExn TypeError (py "__str__ returned non-string (type NoneType)").

Definition unprintable : exn :=
  Unprintable (ExceptionSubclass "BackendError") str_returned_non_string.

(** The entry of the example of section 8 of the specification. *)
Definition pasta : MealPlanEntry :=
  mkEntry (py "2024-03-01") (Some (py "r1")) (Some (py "Pasta")) (py "dinner").

(** Three entries without a recipe. *)
Definition entry_A : MealPlanEntry := mkEntry (py "2024-03-01") None (Some (py "A")) (py "lunch").
Definition entry_B : MealPlanEntry := mkEntry (py "2024-03-02") None (Some (py "B")) (py "lunch").
Definition entry_C : MealPlanEntry := mkEntry (py "2024-03-03") None (Some (py "C")) (py "lunch").

(** A page of meal plans as the fetcher could return it. *)
Definition sample_page : pyval :=
  PyDict
    [(py "items",
      PyList
        [PyDict [(py "date", PyStr (py "2024-03-01"));
                 (py "title", PyStr [67; 114; 234; 112; 101; 115; 32; 128523]);
                 (py "recipeId", PyNone);
                 (py "id", PyInt 17)]]);
     (py "page", PyInt 1);
     (py "total", PyInt 1);
     (py "next", PyNone)].

(** A page with a rating, a float: [4.5]. *)
Definition rated_page : pyval :=
  PyDict
    [(py "items",
      PyList
        [PyDict [(py "id", PyInt 17);
                 (py "rating", PyFloat (Finite false 4 (Decimal.D5 Decimal.Nil) None))]]);
     (py "total", PyInt 1)].

(** An integer of 4301 digits, and lists nested a thousand deep. *)
Definition huge_int : pyval := PyInt (10 ^ 4300)%Z.

Definition deep_list : pyval := Nat.iter 999 (fun v => PyList [v]) (PyList []).

(** ** Notions the statements use *)

(** The fetcher answers every call of a sequence by returning: the state
    it ends in, or [None] if one of the calls raises. *)
Fixpoint answers_all {S : Type} (mealie : MealieFetcher S) (cs : list call) (s : S)
  : option S :=
  match cs with
  | [] => Some s
  | c :: cs' =>
      match mealie c s with
      | (Return _, s') => answers_all mealie cs' s'
      | (Raise _, _) => None
      end
  end.

(** What one run of a single-call tool does to the fetcher: the calls seen
    grow by exactly [c], and the fetcher is in the state that answering [c]
    once leaves it in. *)
Definition calls_once {S : Type} (mealie : MealieFetcher S) (c : call)
  (w w' : world S) : Prop :=
  calls w' = calls w ++ [c] /\ fetcher w' = snd (mealie c (fetcher w)).

(** The world after the entry record is logged and one call is answered. *)
Definition after_call {S : Type} (info : pyval) (c : call) (s' : S) (w : world S)
  : world S :=
  mkWorld s' (calls w ++ [c]) (records w ++ [(INFO, info)]).

(** The outcome of the handler on a caught exception: the envelope of the
    message, or what [str(e)] raises. *)
Definition handler_outcome (python : interpreter) (prefix : pystr) (e : exn)
  : outcome pystr :=
  match str e with
  | Return message => format_error_response python (prefix ++ message)
  | Raise e' => Raise e'
  end.

(** The outcome of a single-call tool, from the fetcher's answer alone. *)
Definition outcome_of_answer (python : interpreter) (prefix : string)
  (answer : outcome pyval) : outcome pystr :=
  match answer with
  | Return v =>
      match json_dumps python v with
      | Return t => Return t
      | Raise e => handler_outcome python (py prefix) e
      end
  | Raise e =>
      if is_Exception (exn_type e)
      then handler_outcome python (py prefix) e
      else Raise e
  end.

(** The exceptions the encoder raises. *)
Definition encoder_error (python : interpreter) (e : exn) : Prop :=
  (exists type_name, e = not_serializable type_name)
  \/ e = exceeds_the_limit python
  \/ e = recursion_depth_exceeded.

(** Every exception the fetcher raises is an instance of [Exception] on
    which [str] returns. *)
Definition raises_printable_errors {S : Type} (mealie : MealieFetcher S) : Prop :=
  forall c s e s',
    mealie c s = (Raise e, s') ->
    is_Exception (exn_type e) = true /\ exists message, str e = Return message.

(** The words each tool's handler puts before the exception's message. *)
Definition error_prefix (t : tool) : pystr :=
  match t with
  | GetAllMealplans _ _ _ _ => py "Error fetching mealplans: "
  | CreateMealplan _ => py "Error creating mealplan entry: "
  | CreateMealplanBulk _ => py "Error creating bulk mealplan entries: "
  | GetTodaysMealplan => py "Error fetching today's mealplan: "
  end.

(** [k in v] for a dict [v]. *)
Definition has_key (k : pystr) (v : pyval) : bool :=
  match v with
  | PyDict d => match dict_get k d with Some _ => true | None => false end
  | _ => false
  end.

(** A word between double quotes. *)
Definition quoted (s : string) : pystr := 34 :: py s ++ [34].

(** The text of the fixed success acknowledgement of the bulk tool, as the
    specification writes it. *)
Definition bulk_success_text : pystr :=
  py "{" ++ quoted "message" ++ py ": "
  ++ quoted "Bulk mealplan entries created successfully" ++ py "}".

(** ** Notions the round-trip proof uses *)

(** What follows a value in encoded text: nothing, a comma, or the bracket
    or brace that closes the container. *)
Definition delimiter_next (rest : pystr) : bool :=
  match rest with
  | [] => true
  | c :: _ => (c =? 44) || (c =? 93) || (c =? 125)
  end.

(** The first character of an encoded value: not whitespace, and not a
    closing bracket. *)
Definition starts_value (t : pystr) : Prop :=
  exists c r, t = c :: r /\ is_ws c = false /\ c <> 93.

(** The fuel the scanner needs to read a value back. *)
Fixpoint size (v : pyval) : nat :=
  match v with
  | PyList l => S (list_sum (map (fun x => S (size x)) l))
  | PyDict d => S (list_sum (map (fun kv => match kv with (_, x) => S (size x) end) d))
  | _ => 1
  end.

(** The fuel for the elements of a list, and for the items of a dict. *)
Definition values_size (l : list pyval) : nat :=
  list_sum (map (fun x => S (size x)) l).

Definition pairs_size (d : list (pystr * pyval)) : nat :=
  list_sum (map (fun kv => match kv with (_, x) => S (size x) end) d).

(** The chunk of one item of a dict, as [json_encode] produces it. *)
Definition encode_pair (python : interpreter) (depth : nat) (kv : pystr * pyval)
  : outcome pystr :=
  match kv with
  | (k, x) =>
      match json_encode python x depth with
      | Raise e => Raise e
      | Return c => Return (encode_basestring_ascii k ++ key_separator ++ c)
      end
  end.

(** What the induction carries for one value: one text, which the encoder
    returns at any depth that suffices and the scanner reads back at any
    depth that suffices. *)
Definition roundtrips (python : interpreter) (v : pyval) : Prop :=
  json_representable v = true ->
  numbers_convert python v = true ->
  exists t,
    (forall depth, (nesting v <= depth)%nat -> json_encode python v depth = Return t)
    /\ starts_value t
    /\ (size v <= List.length t)%nat
    /\ forall fuel depth rest,
         (size v <= fuel)%nat -> (nesting v <= depth)%nat ->
         delimiter_next rest = true ->
         scan_once python fuel depth (t ++ rest) = Some (v, rest).

(** Induction on values, through the lists and dicts they nest. *)
Section PyvalInduction.

Variable P : pyval -> Prop.
Hypothesis HNone : P PyNone.
Hypothesis HBool : forall b, P (PyBool b).
Hypothesis HInt : forall z, P (PyInt z).
Hypothesis HFloat : forall f, P (PyFloat f).
Hypothesis HStr : forall s, P (PyStr s).
Hypothesis HList : forall l, Forall P l -> P (PyList l).
Hypothesis HDict : forall d, Forall (fun kv => P (snd kv)) d -> P (PyDict d).
Hypothesis HObject : forall t, P (PyObject t).

Fixpoint pyval_nested_ind (v : pyval) : P v :=
  match v with
  | PyNone => HNone
  | PyBool b => HBool b
  | PyInt z => HInt z
  | PyFloat f => HFloat f
  | PyStr s => HStr s
  | PyList l =>
      HList l
        ((fix all (l : list pyval) : Forall P l :=
            match l with
            | [] => Forall_nil P
            | x :: l' => Forall_cons x (pyval_nested_ind x) (all l')
            end) l)
  | PyDict d =>
      HDict d
        ((fix all (d : list (pystr * pyval)) : Forall (fun kv => P (snd kv)) d :=
            match d with
            | [] => Forall_nil _
            | (k, x) :: d' =>
                @Forall_cons _ (fun kv => P (snd kv)) (k, x) d'
                  (pyval_nested_ind x) (all d')
            end) d)
  | PyObject t => HObject t
  end.

End PyvalInduction.

(** ** Notions of the further properties *)

(** The record each tool hands to [logger.info] when it is entered. *)
Definition entry_record (t : tool) : pyval :=
  match t with
  | GetAllMealplans start_date end_date page per_page =>
      PyDict [(py "message", PyStr (py "Fetching mealplans"));
              (py "start_date", of_optional_str start_date);
              (py "end_date", of_optional_str end_date);
              (py "page", of_optional_int page);
              (py "per_page", of_optional_int per_page)]
  | CreateMealplan entry =>
      PyDict [(py "message", PyStr (py "Creating mealplan entry"));
              (py "entry", PyDict (model_dump entry))]
  | CreateMealplanBulk entries =>
      PyDict [(py "message", PyStr (py "Creating bulk mealplan entries"));
              (py "entries_count", PyInt (Z.of_nat (List.length entries)))]
  | GetTodaysMealplan =>
      PyDict [(py "message", PyStr (py "Fetching today's mealplan"))]
  end.

(** The two records the handler logs for a caught exception. *)
Definition failure_records (python : interpreter) (error_msg : pystr) (e : exn)
  : list (level * pyval) :=
  [(ERROR, PyDict [(py "message", PyStr error_msg)]);
   (DEBUG, PyDict [(py "message", PyStr (py "Error traceback"));
                   (py "traceback", PyStr (format_exc python e))])].

(** The call a tool that makes a single call sends to the fetcher. *)
Definition single_call (t : tool) : option call :=
  match t with
  | GetAllMealplans start_date end_date page per_page =>
      Some (get_mealplans_call start_date end_date page per_page)
  | CreateMealplan entry => Some (create_mealplan_call entry)
  | CreateMealplanBulk _ => None
  | GetTodaysMealplan => Some get_todays_mealplan_call
  end.

(** A value made of [None], booleans, numbers, strings, lists and dicts
    only: it holds no object without a JSON encoding. *)
Fixpoint serializable (v : pyval) : bool :=
  match v with
  | PyNone | PyBool _ | PyInt _ | PyFloat _ | PyStr _ => true
  | PyList l => forallb serializable l
  | PyDict d => forallb (fun kv => match kv with (_, x) => serializable x end) d
  | PyObject _ => false
  end.

(** A printable ASCII character, from the space to the tilde. *)
Definition printable (c : N) : bool := (32 <=? c) && (c <=? 126).

(** Running [create_mealplan] on each entry in turn, payloads dropped. *)
Definition create_one_by_one {S : Type} (mealie : MealieFetcher S)
  (python : interpreter) (entries : list MealPlanEntry) : M S unit :=
  for_each entries
    (fun entry => bind (create_mealplan mealie python entry) (fun _ => ret tt)).

(** Two entries whose fields are plain text, and an object with no JSON
    encoding. *)
Definition salad : MealPlanEntry :=
  mkEntry (py "2024-03-04") None (Some (py "Salade ni" ++ [231] ++ py "oise")) (py "side").

Definition a_datetime : pyval := PyObject (py "datetime").

(** A fetcher that returns an object with no JSON encoding on any call. *)
Definition unserializable_fetcher : MealieFetcher nat :=
  fun _ k => (Return (PyList [PyInt 1; a_datetime]), Datatypes.S k).

(** * Properties *)

(** ** Arithmetic of the escapes *)

Lemma hexval_hexdigit (d : N) : d < 16 -> hexval (hexdigit d) = Some d.
Proof.
  intros H.
  assert (C : d = 0 \/ d = 1 \/ d = 2 \/ d = 3 \/ d = 4 \/ d = 5 \/ d = 6 \/ d = 7
              \/ d = 8 \/ d = 9 \/ d = 10 \/ d = 11 \/ d = 12 \/ d = 13
              \/ d = 14 \/ d = 15) by lia.
  repeat (destruct C as [-> | C]; [reflexivity |]).
  subst d. reflexivity.
Qed.

Lemma decode_format_04x (n : N) :
  n < 65536 ->
  decode_uXXXX (hexdigit (n / 4096)) (hexdigit ((n / 256) mod 16))
               (hexdigit ((n / 16) mod 16)) (hexdigit (n mod 16)) = Some n.
Proof.
  intros H. unfold decode_uXXXX.
  assert (Ha : n / 4096 < 16) by (apply N.Div0.div_lt_upper_bound; lia).
  assert (Hb : (n / 256) mod 16 < 16) by (apply N.mod_lt; lia).
  assert (Hc : (n / 16) mod 16 < 16) by (apply N.mod_lt; lia).
  assert (Hd : n mod 16 < 16) by (apply N.mod_lt; lia).
  rewrite !hexval_hexdigit by assumption.
  f_equal.
  pose proof (N.div_mod n 16 ltac:(lia)) as E1.
  pose proof (N.div_mod (n / 16) 16 ltac:(lia)) as E2.
  pose proof (N.div_mod (n / 256) 16 ltac:(lia)) as E3.
  assert (E4 : n / 16 / 16 = n / 256) by (rewrite N.Div0.div_div; reflexivity).
  assert (E5 : n / 256 / 16 = n / 4096) by (rewrite N.Div0.div_div; reflexivity).
  rewrite E4 in E2. rewrite E5 in E3.
  lia.
Qed.

(** Or-ing a value shifted left by ten bits with one below [2^10] adds them. *)
Lemma lor_shiftl_10 (a b : N) :
  b < 1024 -> N.lor (N.shiftl a 10) b = a * 1024 + b.
Proof.
  intros H.
  assert (D : N.land (N.shiftl a 10) b = 0).
  { apply N.bits_inj. intros i. rewrite N.land_spec, N.bits_0.
    destruct (N.lt_ge_cases i 10) as [Hi | Hi].
    - rewrite N.shiftl_spec_low by assumption. reflexivity.
    - replace b with (b mod 2 ^ 10) by (apply N.mod_small; exact H).
      rewrite N.mod_pow2_bits_high by assumption. apply andb_false_r. }
  rewrite <- N.lxor_lor by exact D.
  rewrite <- N.add_nocarry_lxor by exact D.
  rewrite N.shiftl_mul_pow2. reflexivity.
Qed.

Lemma high_surrogate_of (n : N) :
  n < 1048576 ->
  N.lor 55296 (N.land (N.shiftr n 10) 1023) = 55296 + n / 1024.
Proof.
  intros H.
  change 1023 with (N.ones 10). rewrite N.land_ones, N.shiftr_div_pow2.
  change (2 ^ 10) with 1024.
  assert (n / 1024 < 1024) by (apply N.Div0.div_lt_upper_bound; lia).
  rewrite N.mod_small by assumption.
  change 55296 with (N.shiftl 54 10) at 1.
  rewrite lor_shiftl_10 by assumption. reflexivity.
Qed.

Lemma low_surrogate_of (n : N) :
  N.lor 56320 (N.land n 1023) = 56320 + n mod 1024.
Proof.
  change 1023 with (N.ones 10). rewrite N.land_ones.
  change (2 ^ 10) with 1024.
  assert (n mod 1024 < 1024) by (apply N.mod_lt; lia).
  change 56320 with (N.shiftl 55 10) at 1.
  rewrite lor_shiftl_10 by assumption. reflexivity.
Qed.

(** ** Strings *)

Ltac decide_tests :=
  repeat match goal with
    | |- context [N.eqb ?a ?b] => destruct (N.eqb_spec a b); try lia
    | |- context [N.ltb ?a ?b] => destruct (N.ltb_spec a b); try lia
    | |- context [N.leb ?a ?b] => destruct (N.leb_spec a b); try lia
    end.

Lemma scalar_range (c : N) :
  scalar c = true -> c < 55296 \/ (57343 < c /\ c < 1114112).
Proof.
  unfold scalar. rewrite orb_true_iff, andb_true_iff, !N.ltb_lt. tauto.
Qed.

(** Scanning a four-digit escape of a code point that is not a high
    surrogate. *)
Lemma scanstring_u (c : N) (rest : pystr) :
  c < 55296 \/ (56319 < c /\ c < 65536) ->
  scanstring (92 :: 117 :: format_04x c ++ rest) = prepend c (scanstring rest).
Proof.
  intros H. unfold format_04x. cbn [List.app scanstring N.eqb Pos.eqb].
  rewrite decode_format_04x by lia.
  unfold is_high_surrogate. decide_tests; reflexivity.
Qed.

(** Scanning a surrogate pair joins its halves. *)
Lemma scanstring_pair (q r : N) (rest : pystr) :
  q < 1024 -> r < 1024 ->
  scanstring ((92 :: 117 :: format_04x (55296 + q))
              ++ (92 :: 117 :: format_04x (56320 + r)) ++ rest)
  = prepend (65536 + (q * 1024 + r)) (scanstring rest).
Proof.
  intros Hq Hr. unfold format_04x.
  cbn [List.app scanstring N.eqb Pos.eqb andb].
  rewrite !decode_format_04x by lia.
  unfold is_high_surrogate, is_low_surrogate.
  rewrite (N.add_comm 55296), (N.add_comm 56320), !N.add_sub.
  rewrite lor_shiftl_10 by exact Hr.
  decide_tests; reflexivity.
Qed.

(** Scanning the escape of a character gives the character back. *)
Lemma scanstring_escape (c : N) (rest : pystr) :
  scalar c = true ->
  scanstring (escape_char c ++ rest) = prepend c (scanstring rest).
Proof.
  intros Hc. apply scalar_range in Hc.
  unfold escape_char.
  destruct (N.eqb_spec c 92) as [-> | N92]; [reflexivity |].
  destruct (N.eqb_spec c 34) as [-> | N34]; [reflexivity |].
  destruct (N.eqb_spec c 8) as [-> | N8]; [reflexivity |].
  destruct (N.eqb_spec c 12) as [-> | N12]; [reflexivity |].
  destruct (N.eqb_spec c 10) as [-> | N10]; [reflexivity |].
  destruct (N.eqb_spec c 13) as [-> | N13]; [reflexivity |].
  destruct (N.eqb_spec c 9) as [-> | N9]; [reflexivity |].
  destruct (N.leb_spec 32 c) as [L32 | L32]; cbn [andb].
  - destruct (N.leb_spec c 126) as [L126 | L126].
    + cbn [List.app scanstring]. decide_tests. reflexivity.
    + destruct (N.ltb_spec c 65536) as [Hlt | Hge].
      * apply scanstring_u. lia.
      * assert (Hn : c - 65536 < 1048576) by lia.
        cbv zeta. rewrite (high_surrogate_of _ Hn), low_surrogate_of.
        assert (Hq : (c - 65536) / 1024 < 1024)
          by (apply N.Div0.div_lt_upper_bound; lia).
        assert (Hr : (c - 65536) mod 1024 < 1024) by (apply N.mod_lt; lia).
        rewrite <- app_assoc. rewrite scanstring_pair by assumption.
        rewrite (N.mul_comm _ 1024), <- N.div_mod by lia.
        replace (65536 + (c - 65536)) with c by lia. reflexivity.
  - destruct (N.ltb_spec c 65536) as [Hlt | Hge]; [| lia].
    apply scanstring_u. lia.
Qed.

Lemma scanstring_encoded (s rest : pystr) :
  text s = true ->
  scanstring (flat_map escape_char s ++ 34 :: rest) = Some (s, rest).
Proof.
  induction s as [| c s IH]; intros Hs.
  - reflexivity.
  - cbn [text forallb] in Hs. apply andb_true_iff in Hs as [Hc Hs].
    cbn [flat_map]. rewrite <- app_assoc.
    rewrite scanstring_escape by exact Hc.
    rewrite IH by exact Hs. reflexivity.
Qed.

(** ** Numbers *)

Lemma delimiter_not_digit (rest : pystr) :
  delimiter_next rest = true ->
  match rest with [] => True | c :: _ => is_digit c = false end.
Proof.
  destruct rest as [| c r]; [trivial |]. cbn [delimiter_next].
  rewrite !orb_true_iff, !N.eqb_eq. intros [[-> | ->] | ->]; reflexivity.
Qed.

Lemma scan_frac_delimiter (rest : pystr) :
  delimiter_next rest = true -> scan_frac rest = ([], rest).
Proof.
  destruct rest as [| c [| d r]]; try reflexivity. cbn [delimiter_next].
  rewrite !orb_true_iff, !N.eqb_eq. intros [[-> | ->] | ->]; reflexivity.
Qed.

Lemma scan_exp_delimiter (rest : pystr) :
  delimiter_next rest = true -> scan_exp rest = ([], rest).
Proof.
  destruct rest as [| c r]; [reflexivity |]. cbn [delimiter_next].
  rewrite !orb_true_iff, !N.eqb_eq. intros [[-> | ->] | ->]; reflexivity.
Qed.

Lemma scan_digits_chars (u : Decimal.uint) (rest : pystr) :
  match rest with [] => True | c :: _ => is_digit c = false end ->
  scan_digits (uint_chars u ++ rest) = (u, rest).
Proof.
  intros Hrest.
  induction u as [| u IH | u IH | u IH | u IH | u IH | u IH | u IH | u IH | u IH | u IH];
    cbn [uint_chars List.app scan_digits];
    try (change (is_digit _) with true; cbn iota; rewrite IH; reflexivity).
  destruct rest as [| c r]; [reflexivity |].
  cbn [scan_digits]. rewrite Hrest. reflexivity.
Qed.

Lemma uint_chars_head (u : Decimal.uint) :
  u <> Decimal.Nil -> exists c cs, uint_chars u = c :: cs /\ is_digit c = true.
Proof.
  intros Hu. destruct u; [congruence | ..]; cbn [uint_chars];
    eexists; eexists; (split; [reflexivity | reflexivity]).
Qed.

Lemma nzhead_not_D0 (u u' : Decimal.uint) : Decimal.nzhead u <> Decimal.D0 u'.
Proof.
  induction u; cbn [Decimal.nzhead]; try discriminate. assumption.
Qed.

(** The decimal digits of a positive number start with a non-zero digit. *)
Lemma to_uint_head (p : positive) :
  exists c cs,
    uint_chars (Pos.to_uint p) = c :: cs
    /\ is_digit c = true /\ c <> 48.
Proof.
  pose proof (DecimalN.Unsigned.to_of (N.to_uint (Npos p))) as Hn.
  rewrite DecimalN.Unsigned.of_to in Hn.
  change (N.to_uint (Npos p)) with (Pos.to_uint p) in Hn.
  pose proof (DecimalPos.Unsigned.to_uint_nonnil p) as Hnil.
  destruct (Pos.to_uint p) as [| u | u | u | u | u | u | u | u | u | u] eqn:E;
    [ exfalso; apply Hnil; reflexivity | |
      cbn [uint_chars]; eexists; eexists;
      (split; [reflexivity | split; [reflexivity | discriminate]]) .. ].
  exfalso. symmetry in Hn. rewrite DecimalFacts.unorm_D0 in Hn.
  unfold Decimal.unorm in Hn.
  destruct (Decimal.nzhead u) eqn:Eh;
    try (rewrite <- Eh in Hn; exact (nzhead_not_D0 _ _ Hn)).
  injection Hn as <-.
  exact (DecimalPos.Unsigned.to_uint_nonzero p E).
Qed.

Lemma digit_range (c : N) : is_digit c = true -> 48 <= c <= 57.
Proof.
  unfold is_digit. rewrite andb_true_iff, !N.leb_le. tauto.
Qed.

Lemma int_repr_head (z : Z) :
  exists c cs, int_repr z = c :: cs /\ (is_digit c = true \/ c = 45).
Proof.
  destruct z as [| p | p]; cbn [int_repr].
  - exists 48, []. split; [reflexivity | left; reflexivity].
  - change (N.to_uint (Npos p)) with (Pos.to_uint p).
    destruct (to_uint_head p) as (c & cs & E & Hd & _).
    exists c, cs. rewrite E. split; [reflexivity | left; exact Hd].
  - eexists; eexists. split; [reflexivity | right; reflexivity].
Qed.

(** Scanning the digits of a number gives the number back, whatever
    follows that is no digit. *)
Lemma match_integer_digits (n : N) (rest : pystr) :
  match rest with [] => True | c :: _ => is_digit c = false end ->
  match_integer (uint_chars (N.to_uint n) ++ rest) = Some (N.to_uint n, rest).
Proof.
  intros Hrest. destruct n as [| p]; [reflexivity |].
  change (N.to_uint (Npos p)) with (Pos.to_uint p).
  pose proof (scan_digits_chars (Pos.to_uint p) rest Hrest) as Hscan.
  destruct (to_uint_head p) as (c & cs & E & Hd & Hc).
  rewrite E in *. cbn [List.app] in *. unfold match_integer.
  destruct (N.eqb_spec c 48) as [-> | _]; [congruence |].
  rewrite Hd, Hscan. reflexivity.
Qed.

(** The digits of a number start with a digit, not with a minus sign. *)
Lemma to_uint_digit (n : N) :
  exists c cs, uint_chars (N.to_uint n) = c :: cs /\ is_digit c = true.
Proof.
  destruct n as [| p]; [exists 48, []; split; reflexivity |].
  change (N.to_uint (Npos p)) with (Pos.to_uint p).
  destruct (to_uint_head p) as (c & cs & E & Hd & _). eauto.
Qed.

Lemma scan_number_repr (python : interpreter) (z : Z) (rest : pystr) :
  exceeds_limit python (int_digits z) = false ->
  delimiter_next rest = true ->
  scan_number python (int_repr z ++ rest) = Some (PyInt z, rest).
Proof.
  intros Hlimit Hrest.
  pose proof (scan_frac_delimiter rest Hrest) as Hf.
  pose proof (scan_exp_delimiter rest Hrest) as He.
  pose proof (delimiter_not_digit rest Hrest) as Hd.
  unfold int_digits in Hlimit.
  destruct z as [| p | p]; cbn [int_repr Z.abs_N] in *.
  - cbn [List.app]. unfold scan_number, match_integer.
    cbn [N.eqb Pos.eqb]. rewrite Hf, He. cbn [List.app].
    change (N.to_uint 0) with (Decimal.D0 Decimal.Nil) in Hlimit.
    rewrite Hlimit. reflexivity.
  - unfold scan_number.
    pose proof (match_integer_digits (Npos p) rest Hd) as Hm.
    destruct (to_uint_digit (Npos p)) as (c & cs & E & Hc).
    rewrite E in *. cbn [List.app] in *.
    apply digit_range in Hc.
    destruct (N.eqb_spec c 45) as [-> | _]; [lia |].
    rewrite Hm, Hf, He. cbn [List.app]. rewrite Hlimit.
    rewrite DecimalN.Unsigned.of_to. reflexivity.
  - unfold scan_number. cbn [List.app N.eqb Pos.eqb].
    rewrite (match_integer_digits (Npos p) rest Hd), Hf, He. cbn [List.app].
    rewrite Hlimit.
    rewrite DecimalN.Unsigned.of_to. reflexivity.
Qed.

(** The digits of an exponent are those of some number of the decimal
    notation, with a zero before a single digit. *)
Lemma exponent_digits (n : N) :
  exists u,
    u <> Decimal.Nil
    /\ match uint_chars (N.to_uint n) with
       | [d] => [48; d]
       | digits => digits
       end = uint_chars u.
Proof.
  destruct (to_uint_digit n) as (c & cs & E & _).
  destruct cs as [| c' cs].
  - exists (Decimal.D0 (N.to_uint n)). split; [discriminate |].
    rewrite E. cbn [uint_chars]. rewrite E. reflexivity.
  - exists (N.to_uint n). split; [| rewrite E; reflexivity].
    intros H. rewrite H in E. discriminate E.
Qed.

Lemma scan_exp_repr (z : Z) (rest : pystr) :
  delimiter_next rest = true ->
  scan_exp (exponent_repr z ++ rest) = (exponent_repr z, rest).
Proof.
  intros Hrest. unfold exponent_repr.
  destruct (exponent_digits (Z.abs_N z)) as (u & Hu & ->).
  cbn [List.app scan_exp N.eqb Pos.eqb orb].
  assert (Hsign : forall sign,
             sign = 45 \/ sign = 43 ->
             (let (sg, r2) :=
                if (sign =? 43) || (sign =? 45)
                then ([sign], uint_chars u ++ rest)
                else ([], sign :: uint_chars u ++ rest) in
              match scan_digits r2 with
              | (Decimal.Nil, _) => ([], 101 :: sign :: uint_chars u ++ rest)
              | (u0, rest0) => (101 :: sg ++ uint_chars u0, rest0)
              end)
             = (101 :: sign :: uint_chars u, rest)).
  { intros sign [-> | ->]; cbn [N.eqb Pos.eqb orb];
      rewrite (scan_digits_chars u rest (delimiter_not_digit rest Hrest));
      destruct u; try congruence; reflexivity. }
  destruct (z <? 0)%Z; apply Hsign; auto.
Qed.

(** Scanning the text of a finite float hands [float] that text. *)
Lemma scan_number_float (python : interpreter) (f : pyfloat) (rest : pystr) :
  finite_float f = true ->
  parse_float python (floatstr f) = Some f ->
  delimiter_next rest = true ->
  scan_number python (floatstr f ++ rest) = Some (PyFloat f, rest).
Proof.
  intros Hfin Hparse Hrest.
  destruct f as [neg i frac e | |]; try discriminate Hfin.
  cbn [floatstr float_repr] in *.
  set (fractext := match frac with
                   | Decimal.Nil => []
                   | _ => 46 :: uint_chars frac
                   end) in *.
  set (exptext := match e with Some z => exponent_repr z | None => [] end) in *.
  assert (Htext : parse_float python
                    ((if neg then [45] else []) ++ uint_chars (N.to_uint i)
                     ++ fractext ++ exptext)
                  = Some (Finite neg i frac e)) by exact Hparse.
  (* the exponent *)
  assert (Hexp : scan_exp (exptext ++ rest) = (exptext, rest)).
  { unfold exptext. destruct e as [z |];
      [apply scan_exp_repr; exact Hrest | apply scan_exp_delimiter; exact Hrest]. }
  assert (Hexp_head : match exptext ++ rest with
                      | [] => True
                      | c :: _ => is_digit c = false /\ c <> 46
                      end).
  { unfold exptext. destruct e as [z |].
    - cbn. split; [reflexivity | discriminate].
    - cbn [List.app]. destruct rest as [| c r]; [trivial |].
      cbn [delimiter_next] in Hrest.
      rewrite !orb_true_iff, !N.eqb_eq in Hrest.
      destruct Hrest as [[-> | ->] | ->]; split; (reflexivity || discriminate). }
  (* the fraction *)
  assert (Hfrac : scan_frac (fractext ++ exptext ++ rest) = (fractext, exptext ++ rest)).
  { unfold fractext. destruct (Decimal.uint_eq_dec frac Decimal.Nil) as [-> | Hne].
    - cbn [List.app]. destruct (exptext ++ rest) as [| c [| d r]]; try reflexivity.
      destruct Hexp_head as [_ Hc]. cbn [scan_frac].
      destruct (N.eqb_spec c 46); [congruence | reflexivity].
    - assert (Hdigits : scan_digits (uint_chars frac ++ exptext ++ rest)
                        = (frac, exptext ++ rest)).
      { apply scan_digits_chars. destruct (exptext ++ rest); [trivial | tauto]. }
      destruct (uint_chars_head frac Hne) as (d & ds & E & Hd).
      destruct frac; [congruence | ..];
        cbn [List.app]; rewrite E in *; cbn [List.app scan_frac tl N.eqb Pos.eqb andb] in *;
        rewrite Hd; rewrite Hdigits; rewrite E; reflexivity. }
  assert (Hint_next : match fractext ++ exptext ++ rest with
                      | [] => True
                      | c :: _ => is_digit c = false
                      end).
  { unfold fractext. destruct frac; cbn [List.app]; try reflexivity.
    destruct (exptext ++ rest); [trivial | tauto]. }
  assert (Hsome : fractext ++ exptext <> []).
  { unfold fractext, exptext. destruct frac; try discriminate.
    destruct e; [| discriminate Hfin]. discriminate. }
  pose proof (match_integer_digits i (fractext ++ exptext ++ rest) Hint_next) as Hm.
  assert (Hbody :
            match match_integer (uint_chars (N.to_uint i) ++ fractext ++ exptext ++ rest) with
            | None => None
            | Some (u, r) =>
                let (fr, r1) := scan_frac r in
                let (ex, r2) := scan_exp r1 in
                match fr ++ ex with
                | [] =>
                    if exceeds_limit python (Decimal.nb_digits u) then None
                    else
                      let n := Z.of_N (N.of_uint u) in
                      Some (PyInt (if neg then (- n)%Z else n), r)
                | _ :: _ =>
                    match
                      parse_float python
                        ((if neg then [45] else []) ++ uint_chars u ++ fr ++ ex)
                    with
                    | Some f => Some (PyFloat f, r2)
                    | None => None
                    end
                end
            end = Some (PyFloat (Finite neg i frac e), rest)).
  { rewrite Hm, Hfrac, Hexp.
    destruct (fractext ++ exptext) as [| c0 r0] eqn:E0; [congruence |].
    rewrite Htext. reflexivity. }
  unfold scan_number. destruct neg; cbn [List.app].
  - cbn [N.eqb Pos.eqb]. rewrite <- !app_assoc. exact Hbody.
  - destruct (to_uint_digit i) as (c & cs & E & Hc).
    rewrite <- !app_assoc. rewrite E in *. cbn [List.app] in *.
    apply digit_range in Hc.
    destruct (N.eqb_spec c 45) as [-> | _]; [lia |].
    exact Hbody.
Qed.

(** On a digit or a minus sign, [scan_once] reads a number. *)
Lemma scan_once_number (python : interpreter) (f depth : nat) (c : N) (r : pystr)
  (number : pyval * pystr) :
  is_digit c = true \/ c = 45 ->
  scan_number python (c :: r) = Some number ->
  scan_once python (S f) depth (c :: r) = Some number.
Proof.
  intros Hc Hn.
  assert (Hr : 45 <= c <= 57).
  { destruct Hc as [Hd | ->]; [apply digit_range in Hd |]; lia. }
  cbn [scan_once].
  change (py "null") with [110; 117; 108; 108].
  change (py "true") with [116; 114; 117; 101].
  change (py "false") with [102; 97; 108; 115; 101].
  cbn [starts_with].
  decide_tests. rewrite Hn. reflexivity.
Qed.

(** ** Dicts with distinct keys *)

Lemma pystr_eqb_eq (a b : pystr) : pystr_eqb a b = true <-> a = b.
Proof.
  unfold pystr_eqb. destruct (list_eq_dec N.eq_dec a b); split; congruence.
Qed.

Lemma pystr_eqb_refl (a : pystr) : pystr_eqb a a = true.
Proof. apply pystr_eqb_eq. reflexivity. Qed.

Lemma dict_set_fresh {V : Type} (k : pystr) (v : V) (d : list (pystr * V)) :
  existsb (pystr_eqb k) (map fst d) = false ->
  dict_set k v d = d ++ [(k, v)].
Proof.
  induction d as [| [k' v'] d IH]; intros H.
  - reflexivity.
  - cbn [map fst existsb] in H. apply orb_false_iff in H as [Hk Hd].
    cbn [dict_set List.app]. rewrite Hk, IH by exact Hd. reflexivity.
Qed.

Lemma existsb_app_false {A : Type} (f : A -> bool) (l1 l2 : list A) :
  existsb f l1 = false -> existsb f l2 = false -> existsb f (l1 ++ l2) = false.
Proof. intros H1 H2. rewrite existsb_app, H1, H2. reflexivity. Qed.

Lemma fold_dict_set_distinct {V : Type} (pairs acc : list (pystr * V)) :
  distinct (map fst pairs) = true ->
  (forall k, In k (map fst pairs) -> existsb (pystr_eqb k) (map fst acc) = false) ->
  fold_left (fun d kv => dict_set (fst kv) (snd kv) d) pairs acc = acc ++ pairs.
Proof.
  revert acc. induction pairs as [| [k v] pairs IH]; intros acc Hd Hacc.
  - cbn [fold_left]. rewrite app_nil_r. reflexivity.
  - cbn [map fst distinct] in Hd. apply andb_true_iff in Hd as [Hk Hd].
    apply negb_true_iff in Hk.
    cbn [fold_left fst snd].
    rewrite dict_set_fresh by (apply Hacc; left; reflexivity).
    rewrite IH.
    + rewrite <- app_assoc. reflexivity.
    + exact Hd.
    + intros k' Hin. rewrite map_app. apply existsb_app_false.
      * apply Hacc. right. exact Hin.
      * cbn [map fst existsb]. rewrite orb_false_r.
        destruct (pystr_eqb k' k) eqn:E; [| reflexivity].
        apply pystr_eqb_eq in E. subst k'.
        assert (Hex : existsb (pystr_eqb k) (map fst pairs) = true).
        { apply existsb_exists. exists k. split; [exact Hin | apply pystr_eqb_refl]. }
        congruence.
Qed.

(** Building a dict from pairs whose keys are distinct keeps the pairs. *)
Lemma dict_of_pairs_distinct {V : Type} (pairs : list (pystr * V)) :
  distinct (map fst pairs) = true -> dict_of_pairs pairs = pairs.
Proof.
  intros H. unfold dict_of_pairs.
  rewrite fold_dict_set_distinct; [reflexivity | exact H | reflexivity].
Qed.

(** ** Encoding then scanning *)

Lemma join_cons (sep c : pystr) (cs : list pystr) :
  cs <> [] -> join sep (c :: cs) = c ++ sep ++ join sep cs.
Proof. destruct cs; [congruence | reflexivity]. Qed.

Lemma skip_ws_start (t rest : pystr) :
  starts_value t -> skip_ws (t ++ rest) = t ++ rest.
Proof.
  intros (c & r & -> & Hws & _). cbn [List.app skip_ws]. rewrite Hws. reflexivity.
Qed.

Ltac flatten := repeat (rewrite <- app_assoc || (progress (cbn [List.app]))).

Section Roundtrip.

Variable python : interpreter.

Lemma roundtrips_None : roundtrips python PyNone.
Proof.
  intros _ _. exists (py "null"). split; [reflexivity |].
  split; [exists 110, [117; 108; 108]; repeat split; discriminate |].
  split; [cbn; lia |].
  intros [| f] depth rest Hf _ _; [cbn in Hf; lia | reflexivity].
Qed.

Lemma roundtrips_Bool (b : bool) : roundtrips python (PyBool b).
Proof.
  intros _ _. destruct b.
  - exists (py "true"). split; [reflexivity |].
    split; [exists 116, [114; 117; 101]; repeat split; discriminate |].
    split; [cbn; lia |].
    intros [| f] depth rest Hf _ _; [cbn in Hf; lia | reflexivity].
  - exists (py "false"). split; [reflexivity |].
    split; [exists 102, [97; 108; 115; 101]; repeat split; discriminate |].
    split; [cbn; lia |].
    intros [| f] depth rest Hf _ _; [cbn in Hf; lia | reflexivity].
Qed.

Lemma roundtrips_Int (z : Z) : roundtrips python (PyInt z).
Proof.
  intros _ Hnum. cbn [numbers_convert] in Hnum. apply negb_true_iff in Hnum.
  exists (int_repr z).
  split; [intros depth _; cbn [json_encode]; rewrite Hnum; reflexivity |].
  destruct (int_repr_head z) as (c & cs & E & Hc).
  assert (Hr : 45 <= c <= 57).
  { destruct Hc as [Hd | ->]; [apply digit_range in Hd |]; lia. }
  split.
  { exists c, cs. split; [exact E |]. split; [| lia].
    unfold is_ws. decide_tests; reflexivity. }
  split; [rewrite E; cbn; lia |].
  intros [| f] depth rest Hf _ Hrest; [cbn in Hf; lia |].
  pose proof (scan_number_repr python z rest Hnum Hrest) as Hscan.
  rewrite E in *. cbn [List.app] in *.
  apply scan_once_number; assumption.
Qed.

Lemma roundtrips_Float (f : pyfloat) : roundtrips python (PyFloat f).
Proof.
  intros Hfin Hnum. cbn [json_representable numbers_convert] in *.
  assert (Hparse : parse_float python (floatstr f) = Some f).
  { destruct (parse_float python (floatstr f)) as [f' |]; [| discriminate].
    unfold pyfloat_eqb in Hnum.
    destruct (pyfloat_eq_dec f' f) as [-> | _]; [reflexivity | discriminate]. }
  exists (floatstr f). split; [reflexivity |].
  assert (Hhead : exists c cs, floatstr f = c :: cs /\ (is_digit c = true \/ c = 45)).
  { destruct f as [neg i frac e | |]; try discriminate Hfin.
    cbn [floatstr float_repr]. destruct neg; cbn [List.app].
    - eexists; eexists. split; [reflexivity | right; reflexivity].
    - destruct (to_uint_digit i) as (c & cs & E & Hc).
      rewrite E. cbn [List.app]. eexists; eexists.
      split; [reflexivity | left; exact Hc]. }
  destruct Hhead as (c & cs & E & Hc).
  assert (Hr : 45 <= c <= 57).
  { destruct Hc as [Hd | ->]; [apply digit_range in Hd |]; lia. }
  split.
  { exists c, cs. split; [exact E |]. split; [| lia].
    unfold is_ws. decide_tests; reflexivity. }
  split; [rewrite E; cbn; lia |].
  intros [| fuel] depth rest Hf _ Hrest; [cbn in Hf; lia |].
  pose proof (scan_number_float python f rest Hfin Hparse Hrest) as Hscan.
  rewrite E in *. cbn [List.app] in *.
  apply scan_once_number; assumption.
Qed.

Lemma roundtrips_Str (s : pystr) : roundtrips python (PyStr s).
Proof.
  intros Hs _. cbn [json_representable] in Hs.
  exists (encode_basestring_ascii s). split; [reflexivity |].
  split; [eexists; eexists; split; [reflexivity | split; [reflexivity | discriminate]] |].
  split; [cbn; lia |].
  intros [| f] depth rest Hf _ _; [cbn in Hf; lia |].
  unfold encode_basestring_ascii. cbn [List.app scan_once N.eqb Pos.eqb].
  rewrite <- app_assoc. cbn [List.app].
  rewrite scanstring_encoded by exact Hs. reflexivity.
Qed.

(** The elements of a list: encoded in order, and scanned back by
    [parse_values] up to the closing bracket. *)
Lemma values_roundtrip (l : list pyval) :
  Forall (roundtrips python) l ->
  forallb json_representable l = true ->
  forallb (numbers_convert python) l = true ->
  exists cs,
    (forall depth,
        (list_max (map nesting l) <= depth)%nat ->
        encode_items (fun x => json_encode python x depth) l = Return cs)
    /\ (l = [] -> cs = [])
    /\ (values_size l <= List.length (join item_separator cs) + 1)%nat
    /\ (l <> [] ->
        starts_value (join item_separator cs)
        /\ forall fuel depth rest,
             (values_size l <= fuel)%nat ->
             (list_max (map nesting l) <= depth)%nat ->
             parse_values python fuel depth (join item_separator cs ++ 93 :: rest)
             = Some (l, rest)).
Proof.
  change item_separator with [44; 32].
  induction 1 as [| x l Hx Hl IH]; intros Hrep Hnum.
  - exists []. repeat split; try reflexivity; try (cbn; lia); congruence.
  - cbn [forallb] in Hrep, Hnum.
    apply andb_true_iff in Hrep as [Hrx Hrl].
    apply andb_true_iff in Hnum as [Hnx Hnl].
    destruct (Hx Hrx Hnx) as (t & Et & Hstart & Hlen & Hscan).
    destruct (IH Hrl Hnl) as (cs & Ecs & Hnil & Hsz & Hparse).
    exists (t :: cs).
    split.
    { intros depth Hd. cbn [map list_max fold_right] in Hd. cbn [encode_items].
      rewrite Et by lia. rewrite Ecs by (unfold list_max; lia). reflexivity. }
    split; [congruence |].
    destruct l as [| y l'].
    + rewrite (Hnil eq_refl) in *. unfold values_size in *.
      cbn [join map list_sum fold_right] in *.
      split; [lia |]. intros _. split; [exact Hstart |].
      intros [| f] depth rest Hf Hd; [lia |].
      cbn [list_max fold_right] in Hd.
      cbn [parse_values]. rewrite Hscan by (try reflexivity; lia).
      reflexivity.
    + destruct (Hparse ltac:(discriminate)) as (Hstart' & Hloop).
      assert (Hne : cs <> []).
      { destruct Hstart' as (c & r & E & _). intros ->. discriminate. }
      rewrite (join_cons _ _ _ Hne).
      unfold values_size in *. cbn [map list_sum fold_right] in *.
      split; [rewrite !length_app; cbn [List.length]; lia |].
      intros _. split.
      { destruct Hstart as (c & r & -> & H1 & H2). exists c. eexists.
        split; [reflexivity | split; assumption]. }
      intros [| f] depth rest Hf Hd; [lia |].
      cbn [list_max fold_right] in Hd.
      cbn [parse_values]. flatten.
      rewrite Hscan by (try reflexivity; lia).
      cbn [skip_ws is_ws N.eqb Pos.eqb orb].
      rewrite skip_ws_start by exact Hstart'.
      rewrite Hloop by (try (unfold list_max; cbn [fold_right]); lia). reflexivity.
Qed.

(** The items of a dict: encoded in order, and scanned back by
    [parse_pairs], entered after the quote that opens the first key, up to
    the closing brace. *)
Lemma pairs_roundtrip (d : list (pystr * pyval)) :
  Forall (fun kv => roundtrips python (snd kv)) d ->
  forallb (fun kv => match kv with (k, x) => text k && json_representable x end) d = true ->
  forallb (fun kv => match kv with (_, x) => numbers_convert python x end) d = true ->
  exists cs,
    (forall depth,
        (list_max (map (fun kv => match kv with (_, x) => nesting x end) d) <= depth)%nat ->
        encode_items (encode_pair python depth) d = Return cs)
    /\ (d = [] -> cs = [])
    /\ (pairs_size d <= List.length (join item_separator cs) + 1)%nat
    /\ (d <> [] ->
        exists body,
          join item_separator cs = 34 :: body
          /\ forall fuel depth rest,
               (pairs_size d <= fuel)%nat ->
               (list_max (map (fun kv => match kv with (_, x) => nesting x end) d)
                <= depth)%nat ->
               parse_pairs python fuel depth (body ++ 125 :: rest) = Some (d, rest)).
Proof.
  change item_separator with [44; 32].
  induction 1 as [| [k x] d Hx Hd IH]; intros Hrep Hnum.
  - exists []. repeat split; try reflexivity; try (cbn; lia); congruence.
  - cbn [forallb] in Hrep, Hnum.
    apply andb_true_iff in Hrep as [Hkx Hrd].
    apply andb_true_iff in Hkx as [Hk Hrx]. cbn [snd] in Hx.
    apply andb_true_iff in Hnum as [Hnx Hnd].
    destruct (Hx Hrx Hnx) as (t & Et & Hstart & Hlen & Hscan).
    destruct (IH Hrd Hnd) as (cs & Ecs & Hnil & Hsz & Hparse).
    exists ((encode_basestring_ascii k ++ [58; 32] ++ t) :: cs).
    split.
    { intros depth Hdepth. cbn [map list_max fold_right] in Hdepth.
      cbn [encode_items encode_pair].
      rewrite Et by lia. rewrite Ecs by (unfold list_max; lia). reflexivity. }
    change key_separator with [58; 32].
    split; [congruence |].
    destruct d as [| y d'].
    + rewrite (Hnil eq_refl) in *. unfold pairs_size in *.
      cbn [join map list_sum fold_right] in *.
      split.
      { unfold encode_basestring_ascii.
        repeat (rewrite length_app || cbn [List.length List.app]). lia. }
      intros _. unfold encode_basestring_ascii. cbn [List.app].
      eexists. split; [reflexivity |].
      intros [| f] depth rest Hf Hdepth; [lia |].
      cbn [list_max fold_right] in Hdepth.
      cbn [parse_pairs]. flatten.
      rewrite scanstring_encoded by exact Hk.
      cbn [skip_ws is_ws N.eqb Pos.eqb orb].
      rewrite skip_ws_start by exact Hstart.
      rewrite Hscan by (try reflexivity; lia).
      reflexivity.
    + destruct (Hparse ltac:(discriminate)) as (body & Ebody & Hloop).
      assert (Hne : cs <> []) by (intros ->; discriminate).
      rewrite (join_cons _ _ _ Hne).
      unfold pairs_size in *. cbn [map list_sum fold_right] in *.
      split.
      { unfold encode_basestring_ascii.
        repeat (rewrite length_app || cbn [List.length List.app]). lia. }
      intros _. unfold encode_basestring_ascii. cbn [List.app].
      eexists. split; [reflexivity |].
      intros [| f] depth rest Hf Hdepth; [lia |].
      cbn [list_max fold_right] in Hdepth.
      cbn [parse_pairs]. flatten.
      rewrite scanstring_encoded by exact Hk.
      cbn [skip_ws is_ws N.eqb Pos.eqb orb].
      rewrite skip_ws_start by exact Hstart.
      rewrite Hscan by (try reflexivity; lia).
      cbn [skip_ws is_ws N.eqb Pos.eqb orb].
      rewrite Ebody. cbn [List.app skip_ws is_ws N.eqb Pos.eqb orb].
      rewrite Hloop by (try (unfold list_max; cbn [fold_right]); lia). reflexivity.
Qed.

Lemma roundtrips_List (l : list pyval) :
  Forall (roundtrips python) l -> roundtrips python (PyList l).
Proof.
  intros Hall Hrep Hnum. cbn [json_representable numbers_convert] in Hrep, Hnum.
  destruct (values_roundtrip l Hall Hrep Hnum) as (cs & Ecs & Hnil & Hsz & Hparse).
  exists (91 :: join item_separator cs ++ [93]).
  split.
  { intros [| depth] Hd; cbn [nesting] in Hd; [lia |].
    cbn [json_encode]. rewrite Ecs by lia. reflexivity. }
  split; [eexists; eexists; split; [reflexivity | split; [reflexivity | discriminate]] |].
  split.
  { cbn [size List.length]. fold (values_size l).
    rewrite length_app. cbn [List.length]. lia. }
  intros [| f] [| depth] rest Hf Hd _; cbn [nesting] in Hd; try (cbn in Hf; lia); try lia.
  cbn [size] in Hf. fold (values_size l) in Hf.
  flatten. cbn [scan_once N.eqb Pos.eqb].
  destruct l as [| x l].
  - rewrite (Hnil eq_refl). reflexivity.
  - destruct (Hparse ltac:(discriminate)) as (Hstart & Hloop).
    rewrite skip_ws_start by exact Hstart.
    destruct Hstart as (c & r & E & _ & Hc).
    rewrite E. cbn [List.app].
    destruct (N.eqb_spec c 93) as [-> | _]; [congruence |].
    change (c :: r ++ 93 :: rest) with ((c :: r) ++ 93 :: rest).
    rewrite <- E, Hloop by lia. reflexivity.
Qed.

Lemma roundtrips_Dict (d : list (pystr * pyval)) :
  Forall (fun kv => roundtrips python (snd kv)) d -> roundtrips python (PyDict d).
Proof.
  intros Hall Hrep Hnum. cbn [json_representable numbers_convert] in Hrep, Hnum.
  apply andb_true_iff in Hrep as [Hrep Hkeys].
  destruct (pairs_roundtrip d Hall Hrep Hnum) as (cs & Ecs & Hnil & Hsz & Hparse).
  exists (123 :: join item_separator cs ++ [125]).
  split.
  { intros [| depth] Hd; cbn [nesting] in Hd; [lia |].
    cbn [json_encode]. fold (encode_pair python depth). rewrite Ecs by lia. reflexivity. }
  split; [eexists; eexists; split; [reflexivity | split; [reflexivity | discriminate]] |].
  split.
  { cbn [size List.length]. fold (pairs_size d).
    rewrite length_app. cbn [List.length]. lia. }
  intros [| f] [| depth] rest Hf Hd _; cbn [nesting] in Hd; try (cbn in Hf; lia); try lia.
  cbn [size] in Hf. fold (pairs_size d) in Hf.
  flatten. cbn [scan_once N.eqb Pos.eqb].
  destruct d as [| kv d].
  - rewrite (Hnil eq_refl). reflexivity.
  - destruct (Hparse ltac:(discriminate)) as (body & E & Hloop).
    rewrite E. cbn [List.app skip_ws is_ws N.eqb Pos.eqb orb].
    rewrite Hloop by lia.
    rewrite dict_of_pairs_distinct by exact Hkeys. reflexivity.
Qed.

Lemma roundtrips_all (v : pyval) : roundtrips python v.
Proof.
  induction v using pyval_nested_ind.
  - apply roundtrips_None.
  - apply roundtrips_Bool.
  - apply roundtrips_Int.
  - apply roundtrips_Float.
  - apply roundtrips_Str.
  - apply roundtrips_List. assumption.
  - apply roundtrips_Dict. assumption.
  - intros H. discriminate H.
Qed.

(** [json.loads] undoes [json.dumps] on every structure JSON represents
    that is within the limits of the interpreter. *)
Lemma json_loads_dumps (v : pyval) :
  json_representable v = true ->
  within_limits python v = true ->
  exists t, json_dumps python v = Return t /\ json_loads python t = Some v.
Proof.
  intros Hrep Hlim. unfold within_limits in Hlim.
  apply andb_true_iff in Hlim as [Hlim Hdec].
  apply andb_true_iff in Hlim as [Hnum Henc].
  apply Nat.leb_le in Henc, Hdec.
  destruct (roundtrips_all v Hrep Hnum) as (t & Et & Hstart & Hlen & Hscan).
  exists t. split; [apply Et; exact Henc |].
  unfold json_loads.
  pose proof (skip_ws_start t [] Hstart) as Hws. rewrite app_nil_r in Hws.
  rewrite Hws.
  specialize (Hscan (S (List.length t)) (S (decoder_depth python)) []
                ltac:(lia) Hdec eq_refl).
  rewrite app_nil_r in Hscan. rewrite Hscan. reflexivity.
Qed.

End Roundtrip.

(** ** The model on concrete inputs *)

(** The example of section 8 of the specification: creating the pasta
    entry against a fetcher that echoes its input. *)
Example create_mealplan_echo :
  fst (create_mealplan echo_fetcher python3 pasta (fresh tt))
  = Return (py "{" ++ quoted "date" ++ py ": " ++ quoted "2024-03-01" ++ py ", "
            ++ quoted "recipe_id" ++ py ": " ++ quoted "r1" ++ py ", "
            ++ quoted "title" ++ py ": " ++ quoted "Pasta" ++ py ", "
            ++ quoted "entry_type" ++ py ": " ++ quoted "dinner" ++ py "}").
Proof. reflexivity. Qed.

(** A fetcher result with no JSON encoding ends in the error envelope. *)
Example unserializable_result_is_reported :
  fst (get_all_mealplans (constant_fetcher (PyObject (py "datetime"))) python3
         None None None None (fresh tt))
  = Return (py "{" ++ quoted "error" ++ py ": "
            ++ quoted "Error fetching mealplans: Object of type datetime is not JSON serializable"
            ++ py "}").
Proof. reflexivity. Qed.

(** Escapes of the encoder: a backslash, a line feed, a non-ASCII letter
    and a character beyond the basic plane. *)
Example json_dumps_escapes :
  json_dumps python3 (PyStr [92; 10; 233; 128512])
  = Return (34 :: py "\\\n\u00e9\ud83d\ude00" ++ [34]).
Proof. reflexivity. Qed.

(** Why [text] asks for scalar values: two surrogate code points in a row
    are encoded as two escapes, which the decoder joins into one character. *)
Example surrogates_are_joined :
  json_dumps python3 (PyStr [55357; 56832]) = Return (34 :: py "\ud83d\ude00" ++ [34])
  /\ json_loads python3 (34 :: py "\ud83d\ude00" ++ [34]) = Some (PyStr [128512]).
Proof. split; reflexivity. Qed.

(** Floats as the encoder writes them: with a point, with an exponent,
    and the three that are no JSON. *)
Example json_dumps_floats :
  json_dumps python3
    (PyList [PyFloat (Finite false 1 (Decimal.D0 Decimal.Nil) None);
             PyFloat (Finite true 0 (Decimal.D0 Decimal.Nil) None);
             PyFloat (Finite false 1 Decimal.Nil (Some 16%Z));
             PyFloat (Finite false 1 (Decimal.D5 Decimal.Nil) (Some (-7)%Z));
             PyFloat (Infinite false); PyFloat (Infinite true); PyFloat NaN])
  = Return (py "[1.0, -0.0, 1e+16, 1.5e-07, Infinity, -Infinity, NaN]").
Proof. reflexivity. Qed.

(** The limits of the encoder: an integer of 4300 digits is written, one
    of 4301 digits is not; lists nested 901 deep are written, the next
    level is not. *)
Example json_dumps_limits :
  (exists t, json_dumps python3 (PyInt (10 ^ 4300 - 1)%Z) = Return t)
  /\ json_dumps python3 huge_int = Raise (exceeds_the_limit python3)
  /\ str (exceeds_the_limit python3)
     = Return (py "Exceeds the limit (4300 digits) for integer string conversion; use sys.set_int_max_str_digits() to increase the limit")
  /\ (exists t, json_dumps python3 (Nat.iter 900 (fun v => PyList [v]) (PyList []))
                = Return t)
  /\ json_dumps python3 (Nat.iter 901 (fun v => PyList [v]) (PyList []))
     = Raise recursion_depth_exceeded
  /\ json_dumps python3 (PyList [huge_int; PyObject (py "datetime")])
     = Raise (exceeds_the_limit python3).
Proof.
  split; [eexists; vm_compute; reflexivity |].
  split; [vm_compute; reflexivity |].
  split; [reflexivity |].
  split; [eexists; vm_compute; reflexivity |].
  split; vm_compute; reflexivity.
Qed.

(** The decoder on whitespace, a trailing comma, a leading zero, and
    numbers with a fraction or an exponent. *)
Example json_loads_cases :
  json_loads python3 (py " [-0, 10 ,{ } ] ") = Some (PyList [PyInt 0; PyInt 10; PyDict []])
  /\ json_loads python3 (py "[1, 2,]") = None
  /\ json_loads python3 (py "[01]") = None
  /\ json_loads python3 (py "[1, 2.5]")
     = Some (PyList [PyInt 1; PyFloat (Finite false 2 (Decimal.D5 Decimal.Nil) None)])
  /\ json_loads python3 (py "[1e+16, -Infinity, NaN]")
     = Some (PyList [PyFloat (Finite false 1 Decimal.Nil (Some 16%Z));
                     PyFloat (Infinite true); PyFloat NaN])
  /\ json_loads python3 (py "[1.]") = None
  /\ json_loads python3 (py "[1e]") = None.
Proof. repeat split; reflexivity. Qed.

(** A repeated key keeps its first place and its last value; a high
    surrogate is joined only with a low one that follows it. *)
Example json_loads_corner_cases :
  json_loads python3 (py "{" ++ quoted "a" ++ py ": 1, " ++ quoted "b" ++ py ": 2, "
              ++ quoted "a" ++ py ": 3}")
  = Some (PyDict [(py "a", PyInt 3); (py "b", PyInt 2)])
  /\ json_loads python3 (quoted "\ud83d\u0041") = Some (PyStr [55357; 65])
  /\ json_loads python3 (quoted "\ud83d\ud83d\ude00") = Some (PyStr [55357; 128512]).
Proof. repeat split; reflexivity. Qed.

(** ** How the tools run *)

(** What the encoder raises is one of its three exceptions. *)
Lemma json_encode_raises (python : interpreter) (v : pyval) (depth : nat) (e : exn) :
  json_encode python v depth = Raise e -> encoder_error python e.
Proof.
  revert depth e. induction v using pyval_nested_ind; intros depth e; cbn [json_encode];
    try discriminate.
  - destruct b; discriminate.
  - destruct (exceeds_limit python (int_digits z)); [| discriminate].
    intros [= <-]. right. left. reflexivity.
  - destruct depth as [| depth]; [intros [= <-]; right; right; reflexivity |].
    assert (Hitems : forall e',
               encode_items (fun x => json_encode python x depth) l = Raise e' ->
               encoder_error python e').
    { induction H as [| x l Hx Hl IH]; intros e'; cbn [encode_items];
        [discriminate |].
      destruct (json_encode python x depth) eqn:Ex;
        [| intros [= <-]; exact (Hx _ _ Ex)].
      destruct (encode_items (fun x => json_encode python x depth) l) eqn:El;
        [discriminate |].
      intros [= <-]. apply IH. reflexivity. }
    destruct (encode_items (fun x => json_encode python x depth) l) eqn:El;
      [discriminate |].
    intros [= <-]. apply Hitems. reflexivity.
  - destruct depth as [| depth]; [intros [= <-]; right; right; reflexivity |].
    fold (encode_pair python depth).
    assert (Hitems : forall e', encode_items (encode_pair python depth) d = Raise e' ->
                               encoder_error python e').
    { induction H as [| [k x] d Hx Hd IH]; intros e'; cbn [encode_items encode_pair];
        [discriminate |].
      cbn [snd] in Hx.
      destruct (json_encode python x depth) eqn:Ex;
        [| intros [= <-]; exact (Hx _ _ Ex)].
      destruct (encode_items (encode_pair python depth) d) eqn:Ed; [discriminate |].
      intros [= <-]. apply IH. reflexivity. }
    destruct (encode_items (encode_pair python depth) d) eqn:Ed; [discriminate |].
    intros [= <-]. apply Hitems. reflexivity.
  - intros [= <-]. left. eexists. reflexivity.
Qed.

(** The exceptions of the encoder are instances of [Exception] with a
    message. *)
Lemma encoder_error_printable (python : interpreter) (e : exn) :
  encoder_error python e ->
  is_Exception (exn_type e) = true /\ exists message, str e = Return message.
Proof.
  intros [[type_name ->] | [-> | ->]]; (split; [reflexivity | eexists; reflexivity]).
Qed.

(** The formatter returns, whatever the message. *)
Lemma format_error_response_returns (python : interpreter) (msg : pystr) :
  format_error_response python msg
  = Return (py "{" ++ quoted "error" ++ py ": " ++ encode_basestring_ascii msg ++ py "}").
Proof. reflexivity. Qed.

Lemma json_dumps_bulk_success (python : interpreter) :
  json_dumps python bulk_success = Return bulk_success_text.
Proof. reflexivity. Qed.

Section Runs.

Context {S : Type}.
Variable mealie : MealieFetcher S.
Variable python : interpreter.

(** The shape shared by the three tools that make one call: log, call,
    serialize. *)
Lemma one_call_body (info : pyval) (c : call) (w : world S) :
  bind (logger_log INFO info)
       (fun _ => bind (invoke mealie c) (fun result => lift (json_dumps python result))) w
  = match mealie c (fetcher w) with
    | (Return v, s') => (json_dumps python v, after_call info c s' w)
    | (Raise e, s') => (Raise e, after_call info c s' w)
    end.
Proof.
  unfold bind, logger_log, invoke, lift, after_call. cbn [fetcher calls records].
  destruct (mealie c (fetcher w)) as [[v | e] s']; reflexivity.
Qed.

(** The handler: when [str(e)] returns, it logs two records and returns
    the envelope of its message; when [str(e)] raises, it raises that and
    logs nothing. *)
Lemma report_run (prefix : string) (e : exn) (w : world S) :
  report python prefix e w
  = match str e with
    | Return message =>
        (format_error_response python (py prefix ++ message),
         mkWorld (fetcher w) (calls w)
           (records w ++ failure_records python (py prefix ++ message) e))
    | Raise e' => (Raise e', w)
    end.
Proof.
  unfold report, bind, logger_log, lift, failure_records.
  destruct (str e) as [message | e']; [| reflexivity].
  cbn [fetcher calls records]. rewrite <- app_assoc. reflexivity.
Qed.

(** A run of [try: body / except Exception: handler]. *)
Lemma try_except_run (prefix : string) (body : M S pystr) (w : world S) :
  try_except_Exception body (report python prefix) w
  = match body w with
    | (Return payload, w') => (Return payload, w')
    | (Raise e, w') =>
        if is_Exception (exn_type e)
        then match str e with
             | Return message =>
                 (format_error_response python (py prefix ++ message),
                  mkWorld (fetcher w') (calls w')
                    (records w' ++ failure_records python (py prefix ++ message) e))
             | Raise e' => (Raise e', w')
             end
        else (Raise e, w')
    end.
Proof.
  unfold try_except_Exception.
  destruct (body w) as [[payload | e] w']; [reflexivity |].
  destruct (is_Exception (exn_type e)); [| reflexivity].
  apply report_run.
Qed.

(** Calls and fetcher state after [try: body / except Exception] are those
    after [body]. *)
Lemma try_except_effects (prefix : string) (body : M S pystr) (w : world S) :
  calls (snd (try_except_Exception body (report python prefix) w))
  = calls (snd (body w))
  /\ fetcher (snd (try_except_Exception body (report python prefix) w))
     = fetcher (snd (body w)).
Proof.
  rewrite try_except_run.
  destruct (body w) as [[t | e] w1]; cbn [snd]; [split; reflexivity |].
  destruct (is_Exception (exn_type e)); [| split; reflexivity].
  destruct (str e); split; reflexivity.
Qed.

(** The outcome of [try: body / except Exception]. *)
Lemma try_except_outcome (prefix : string) (body : M S pystr) (w : world S) :
  fst (try_except_Exception body (report python prefix) w)
  = match fst (body w) with
    | Return t => Return t
    | Raise e =>
        if is_Exception (exn_type e)
        then handler_outcome python (py prefix) e
        else Raise e
    end.
Proof.
  rewrite try_except_run. unfold handler_outcome.
  destruct (body w) as [[t | e] w1]; cbn [fst]; [reflexivity |].
  destruct (is_Exception (exn_type e)); [| reflexivity].
  destruct (str e); reflexivity.
Qed.

(** Whatever the handler does, what it gives is not the acknowledgement
    of the bulk tool. *)
Lemma handler_outcome_not_success (prefix : pystr) (e : exn) :
  handler_outcome python prefix e <> Return bulk_success_text.
Proof.
  unfold handler_outcome. destruct (str e) as [message | e']; [| discriminate].
  rewrite format_error_response_returns. discriminate.
Qed.

Lemma create_each_all (entries : list MealPlanEntry) (w : world S) (s' : S) :
  answers_all mealie (map create_mealplan_call entries) (fetcher w) = Some s' ->
  create_each mealie entries w
  = (Return tt,
     mkWorld s' (calls w ++ map create_mealplan_call entries) (records w)).
Proof.
  revert w. induction entries as [| x entries IH]; intros w H.
  - cbn in H. injection H as <-. cbn. rewrite app_nil_r. destruct w; reflexivity.
  - cbn [map answers_all] in H. unfold create_each in *. cbn [for_each].
    unfold bind at 1. unfold bind at 1. unfold invoke at 1.
    destruct (mealie (create_mealplan_call x) (fetcher w)) as [[v | e] s1];
      [| discriminate].
    cbn [ret]. rewrite IH by exact H. cbn [calls records map].
    rewrite <- app_assoc. reflexivity.
Qed.

Lemma create_each_fails (pre post : list MealPlanEntry) (x : MealPlanEntry)
  (w : world S) (s1 s2 : S) (e : exn) :
  answers_all mealie (map create_mealplan_call pre) (fetcher w) = Some s1 ->
  mealie (create_mealplan_call x) s1 = (Raise e, s2) ->
  create_each mealie (pre ++ x :: post) w
  = (Raise e,
     mkWorld s2 (calls w ++ map create_mealplan_call (pre ++ [x])) (records w)).
Proof.
  revert w. induction pre as [| y pre IH]; intros w H Hx.
  - cbn in H. injection H as <-. unfold create_each. cbn [List.app for_each].
    unfold bind at 1. unfold bind at 1. unfold invoke at 1. rewrite Hx.
    reflexivity.
  - cbn [map answers_all] in H. unfold create_each in *. cbn [List.app for_each].
    unfold bind at 1. unfold bind at 1. unfold invoke at 1.
    destruct (mealie (create_mealplan_call y) (fetcher w)) as [[v | e'] s0];
      [| discriminate].
    cbn [ret]. rewrite IH; [| exact H | exact Hx]. cbn [calls records map List.app].
    rewrite <- app_assoc. reflexivity.
Qed.

End Runs.

(** ** The claims *)

Lemma one_call_effects {S : Type} (mealie : MealieFetcher S)
  (python : interpreter) (prefix : string) (info : pyval) (c : call)
  (w : world S) :
  calls_once mealie c w
    (snd (try_except_Exception
            (bind (logger_log INFO info)
               (fun _ => bind (invoke mealie c)
                           (fun result => lift (json_dumps python result))))
            (report python prefix) w)).
Proof.
  unfold calls_once.
  destruct (try_except_effects python prefix
              (bind (logger_log INFO info)
                 (fun _ => bind (invoke mealie c)
                             (fun result => lift (json_dumps python result)))) w)
    as [Hc Hf].
  rewrite Hc, Hf, one_call_body.
  destruct (mealie c (fetcher w)) as [[v | e] s']; split; reflexivity.
Qed.

(** C9: each of the three single-call tools sends its own fetcher
    operation exactly one call per invocation, whether the call returns or
    raises: the calls received grow by that one call, and the fetcher is
    left in the state one answer puts it in. *)
Theorem single_call_tools_call_once {S : Type} (mealie : MealieFetcher S)
  (python : interpreter) (w : world S) :
  (forall start_date end_date page per_page,
      method (get_mealplans_call start_date end_date page per_page) = "get_mealplans"%string
      /\ calls_once mealie (get_mealplans_call start_date end_date page per_page) w
           (snd (get_all_mealplans mealie python start_date end_date page per_page w)))
  /\ (forall entry,
         method (create_mealplan_call entry) = "create_mealplan"%string
         /\ calls_once mealie (create_mealplan_call entry) w
              (snd (create_mealplan mealie python entry w)))
  /\ (method get_todays_mealplan_call = "get_todays_mealplan"%string
      /\ calls_once mealie get_todays_mealplan_call w
           (snd (get_todays_mealplan mealie python w))).
Proof.
  repeat split; apply one_call_effects.
Qed.

(** C8: the call [get_todays_mealplan] sends to the fetcher's operation of
    the same name carries no positional and no keyword argument, so no
    start date, end date, page or per-page value. *)
Theorem todays_mealplan_call_has_no_arguments {S : Type}
  (mealie : MealieFetcher S) (python : interpreter) (w : world S) :
  exists c,
    calls (snd (get_todays_mealplan mealie python w)) = calls w ++ [c]
    /\ method c = "get_todays_mealplan"%string
    /\ args c = []
    /\ kwargs c = []
    /\ dict_get (py "start_date") (kwargs c) = None
    /\ dict_get (py "end_date") (kwargs c) = None
    /\ dict_get (py "page") (kwargs c) = None
    /\ dict_get (py "per_page") (kwargs c) = None.
Proof.
  exists get_todays_mealplan_call.
  split; [apply (one_call_effects mealie python) | repeat split; reflexivity].
Qed.

(** C3: [create_mealplan] sends the fetcher one [create_mealplan] call
    whose keyword arguments are the four fields of the entry, each with the
    value the entry holds; an optional field that is absent travels as
    [None], which is neither the empty string nor zero. *)
Theorem create_mealplan_forwards_fields {S : Type} (mealie : MealieFetcher S)
  (python : interpreter) (entry : MealPlanEntry) (w : world S) :
  exists c,
    calls (snd (create_mealplan mealie python entry w)) = calls w ++ [c]
    /\ method c = "create_mealplan"%string
    /\ args c = []
    /\ map fst (kwargs c) = [py "date"; py "recipe_id"; py "title"; py "entry_type"]
    /\ dict_get (py "date") (kwargs c) = Some (PyStr (date entry))
    /\ dict_get (py "recipe_id") (kwargs c)
       = Some (match recipe_id entry with Some r => PyStr r | None => PyNone end)
    /\ dict_get (py "title") (kwargs c)
       = Some (match title entry with Some t => PyStr t | None => PyNone end)
    /\ dict_get (py "entry_type") (kwargs c) = Some (PyStr (entry_type entry))
    /\ PyNone <> PyStr []
    /\ PyNone <> PyInt 0.
Proof.
  exists (create_mealplan_call entry).
  split; [apply (one_call_effects mealie python) |].
  repeat split; try reflexivity; discriminate.
Qed.

Lemma one_call_outcome {S : Type} (mealie : MealieFetcher S)
  (python : interpreter) (prefix : string) (info : pyval) (c : call)
  (w : world S) :
  fst (try_except_Exception
         (bind (logger_log INFO info)
            (fun _ => bind (invoke mealie c)
                        (fun result => lift (json_dumps python result))))
         (report python prefix) w)
  = outcome_of_answer python prefix (fst (mealie c (fetcher w))).
Proof.
  rewrite try_except_outcome, one_call_body. unfold outcome_of_answer.
  destruct (mealie c (fetcher w)) as [[v | e] s']; cbn [fst]; [| reflexivity].
  destruct (json_dumps python v) as [t | e] eqn:E; [reflexivity |].
  destruct (encoder_error_printable python e (json_encode_raises python v _ e E))
    as [-> _].
  reflexivity.
Qed.

(** C10: whatever the values of the four parameters (any integers, any
    strings, or none), [get_all_mealplans] sends them to the fetcher as
    they are, and its outcome depends on the fetcher's answer alone: when
    the fetcher returns a value that serializes, the tool returns that text;
    an error envelope only ever reports an exception raised by the fetcher
    or by serializing what it returned. *)
Theorem get_all_mealplans_forwards_unvalidated {S : Type}
  (mealie : MealieFetcher S) (python : interpreter)
  (start_date end_date : option pystr) (page per_page : option Z) (w : world S) :
  let c :=
    mkCall "get_mealplans" []
      [(py "start_date", match start_date with Some d => PyStr d | None => PyNone end);
       (py "end_date", match end_date with Some d => PyStr d | None => PyNone end);
       (py "page", match page with Some n => PyInt n | None => PyNone end);
       (py "per_page", match per_page with Some n => PyInt n | None => PyNone end)] in
  let r := get_all_mealplans mealie python start_date end_date page per_page w in
  calls (snd r) = calls w ++ [c]
  /\ fst r = outcome_of_answer python "Error fetching mealplans: "
               (fst (mealie c (fetcher w)))
  /\ (forall v t,
         fst (mealie c (fetcher w)) = Return v -> json_dumps python v = Return t ->
         fst r = Return t).
Proof.
  cbv zeta.
  split; [apply (one_call_effects mealie python) |].
  assert (E := one_call_outcome mealie python "Error fetching mealplans: "
                 (PyDict [(py "message", PyStr (py "Fetching mealplans"));
                          (py "start_date", of_optional_str start_date);
                          (py "end_date", of_optional_str end_date);
                          (py "page", of_optional_int page);
                          (py "per_page", of_optional_int per_page)])
                 (get_mealplans_call start_date end_date page per_page) w).
  split; [exact E |].
  intros v t Hv Ht.
  change (fst (get_all_mealplans mealie python start_date end_date page per_page w)
          = Return t).
  unfold get_all_mealplans, get_all_mealplans_body.
  rewrite E. unfold get_mealplans_call, of_optional_str, of_optional_int.
  rewrite Hv. cbn [outcome_of_answer]. rewrite Ht. reflexivity.
Qed.

Lemma get_all_mealplans_forwards_unvalidated_witness :
  fst (get_all_mealplans empty_page_fetcher python3
         (Some (py "31/12/2024")) (Some (py "soon")) (Some (-3)%Z) (Some 0%Z)
         (fresh tt))
  = Return (py "{" ++ quoted "items" ++ py ": [], " ++ quoted "page" ++ py ": -3}").
Proof.
  refine (proj2 (proj2
    (get_all_mealplans_forwards_unvalidated empty_page_fetcher python3
       (Some (py "31/12/2024")) (Some (py "soon")) (Some (-3)%Z) (Some 0%Z)
       (fresh tt))) _ _ _ _); reflexivity.
Defined.

(** C4, as the code has it: for any values of the four optional
    parameters, absent or not, when the fetcher's list operation returns a
    structure JSON represents that is within the limits of the interpreter
    (no integer of more digits than the limit on conversions, each float
    read back by [float] from the text written for it, containers nested no
    deeper than the encoder and the decoder may enter), [get_all_mealplans]
    returns JSON text that parses back to exactly that structure. *)
Theorem get_all_mealplans_roundtrip {S : Type} (mealie : MealieFetcher S)
  (python : interpreter)
  (start_date end_date : option pystr) (page per_page : option Z)
  (w : world S) (v : pyval) :
  fst (mealie (get_mealplans_call start_date end_date page per_page) (fetcher w))
  = Return v ->
  json_representable v = true ->
  within_limits python v = true ->
  exists t,
    fst (get_all_mealplans mealie python start_date end_date page per_page w)
    = Return t
    /\ json_loads python t = Some v.
Proof.
  intros Hv Hrep Hlim.
  destruct (json_loads_dumps python v Hrep Hlim) as (t & Et & Hl).
  exists t. split; [| exact Hl].
  unfold get_all_mealplans, get_all_mealplans_body.
  rewrite one_call_outcome, Hv. cbn [outcome_of_answer]. rewrite Et. reflexivity.
Qed.

Lemma get_all_mealplans_roundtrip_witness :
  exists t,
    fst (get_all_mealplans (constant_fetcher rated_page) python3
           None None None None (fresh tt)) = Return t
    /\ json_loads python3 t = Some rated_page.
Proof.
  apply (get_all_mealplans_roundtrip (constant_fetcher rated_page) python3
           None None None None (fresh tt) rated_page); reflexivity.
Defined.

(** C4, as stated, fails: an integer of 4301 digits and lists nested a
    thousand deep are structures JSON represents, yet when the fetcher
    returns one of them [get_all_mealplans] returns the error envelope of
    the encoder's exception, which does not parse back to the structure. *)
Lemma oversized_results_are_reported :
  json_representable huge_int = true
  /\ fst (get_all_mealplans (constant_fetcher huge_int) python3
            None None None None (fresh tt))
     = format_error_response python3
         (py "Error fetching mealplans: Exceeds the limit (4300 digits) for integer string conversion; use sys.set_int_max_str_digits() to increase the limit")
  /\ ~ (exists t,
          fst (get_all_mealplans (constant_fetcher huge_int) python3
                 None None None None (fresh tt)) = Return t
          /\ json_loads python3 t = Some huge_int)
  /\ json_representable deep_list = true
  /\ fst (get_all_mealplans (constant_fetcher deep_list) python3
            None None None None (fresh tt))
     = format_error_response python3
         (py "Error fetching mealplans: maximum recursion depth exceeded while encoding a JSON object")
  /\ ~ (exists t,
          fst (get_all_mealplans (constant_fetcher deep_list) python3
                 None None None None (fresh tt)) = Return t
          /\ json_loads python3 t = Some deep_list).
Proof.
  assert (Hint : fst (get_all_mealplans (constant_fetcher huge_int) python3
                        None None None None (fresh tt))
                 = format_error_response python3
                     (py "Error fetching mealplans: Exceeds the limit (4300 digits) for integer string conversion; use sys.set_int_max_str_digits() to increase the limit"))
    by (vm_compute; reflexivity).
  assert (Hdeep : fst (get_all_mealplans (constant_fetcher deep_list) python3
                         None None None None (fresh tt))
                  = format_error_response python3
                      (py "Error fetching mealplans: maximum recursion depth exceeded while encoding a JSON object"))
    by (vm_compute; reflexivity).
  split; [reflexivity |]. split; [exact Hint |]. split.
  { intros (t & Ht & Hl). rewrite Hint in Ht.
    rewrite format_error_response_returns in Ht. injection Ht as <-.
    vm_compute in Hl. discriminate Hl. }
  split; [vm_compute; reflexivity |]. split; [exact Hdeep |].
  intros (t & Ht & Hl). rewrite Hdeep in Ht.
  rewrite format_error_response_returns in Ht. injection Ht as <-.
  vm_compute in Hl. discriminate Hl.
Qed.

Lemma bulk_outcome {S : Type} (mealie : MealieFetcher S) (python : interpreter)
  (entries : list MealPlanEntry) (w : world S) :
  create_mealplan_bulk_body mealie python entries w
  = match
      create_each mealie entries
        (mkWorld (fetcher w) (calls w)
           (records w ++
              [(INFO,
                PyDict [(py "message", PyStr (py "Creating bulk mealplan entries"));
                        (py "entries_count", PyInt (Z.of_nat (List.length entries)))])]))
    with
    | (Return _, w') => (Return bulk_success_text, w')
    | (Raise e, w') => (Raise e, w')
    end.
Proof.
  unfold create_mealplan_bulk_body, create_each.
  unfold bind at 1. unfold logger_log at 1. unfold bind at 1.
  match goal with |- context [for_each entries ?f ?w0] =>
    destruct (for_each entries f w0) as [[[] | e] w'] end; reflexivity.
Qed.

(** C6: on the empty sequence [create_mealplan_bulk] sends the fetcher
    nothing and returns the fixed acknowledgement, which is no error
    envelope. *)
Theorem create_mealplan_bulk_empty {S : Type} (mealie : MealieFetcher S)
  (python : interpreter) (w : world S) :
  let r := create_mealplan_bulk mealie python [] w in
  fst r = Return bulk_success_text
  /\ calls (snd r) = calls w
  /\ fetcher (snd r) = fetcher w
  /\ json_loads python bulk_success_text = Some bulk_success
  /\ has_key (py "error") bulk_success = false
  /\ (forall msg, format_error_response python msg <> Return bulk_success_text).
Proof.
  cbv zeta. repeat split; try reflexivity.
  intros msg H. rewrite format_error_response_returns in H. discriminate H.
Qed.

(** C7: when the fetcher returns on every create call,
    [create_mealplan_bulk] returns the serialization of the fixed object
    with the single field [message], whatever the entries and whatever the
    fetcher returned for them; the fetcher has received one call per entry,
    in order. *)
Theorem create_mealplan_bulk_acknowledges {S : Type} (mealie : MealieFetcher S)
  (python : interpreter) (entries : list MealPlanEntry) (w : world S) (s' : S) :
  answers_all mealie (map create_mealplan_call entries) (fetcher w) = Some s' ->
  let r := create_mealplan_bulk mealie python entries w in
  fst r = Return bulk_success_text
  /\ json_dumps python
       (PyDict [(py "message",
                 PyStr (py "Bulk mealplan entries created successfully"))])
     = Return bulk_success_text
  /\ calls (snd r) = calls w ++ map create_mealplan_call entries
  /\ fetcher (snd r) = s'.
Proof.
  intros H. cbv zeta.
  unfold create_mealplan_bulk, try_except_Exception.
  rewrite bulk_outcome.
  rewrite (create_each_all mealie entries _ s') by exact H.
  repeat split; reflexivity.
Qed.

Lemma create_mealplan_bulk_acknowledges_witness :
  let r := create_mealplan_bulk echo_fetcher python3
             [entry_A; entry_B; entry_C] (fresh tt) in
  fst r = Return bulk_success_text
  /\ json_dumps python3
       (PyDict [(py "message",
                 PyStr (py "Bulk mealplan entries created successfully"))])
     = Return bulk_success_text
  /\ calls (snd r) = map create_mealplan_call [entry_A; entry_B; entry_C]
  /\ fetcher (snd r) = tt.
Proof.
  apply (create_mealplan_bulk_acknowledges echo_fetcher python3
           [entry_A; entry_B; entry_C] (fresh tt) tt).
  reflexivity.
Defined.

(** C2, as the code has it: when the fetcher returns on the create calls
    for the entries before position [i] and raises on the call for the
    entry at position [i], the fetcher has received exactly the calls for
    the entries at positions [0..i], in order, and none after (it is left
    in the state the failing call put it in), and the tool does not return
    the acknowledgement.  It returns the error envelope of the bulk message
    when the exception raised is an instance of [Exception] on which [str]
    returns; otherwise it raises: the exception itself when it is no
    instance of [Exception], what [str] raised when it is one. *)
Theorem create_mealplan_bulk_aborts {S : Type} (mealie : MealieFetcher S)
  (python : interpreter) (entries : list MealPlanEntry) (i : nat)
  (x : MealPlanEntry) (w : world S) (s1 s2 : S) (e : exn) :
  nth_error entries i = Some x ->
  answers_all mealie (map create_mealplan_call (firstn i entries)) (fetcher w)
  = Some s1 ->
  mealie (create_mealplan_call x) s1 = (Raise e, s2) ->
  let r := create_mealplan_bulk mealie python entries w in
  calls (snd r) = calls w ++ map create_mealplan_call (firstn (Datatypes.S i) entries)
  /\ fetcher (snd r) = s2
  /\ fst r <> Return bulk_success_text
  /\ (is_Exception (exn_type e) = true ->
      forall message, str e = Return message ->
      fst r = format_error_response python
                (py "Error creating bulk mealplan entries: " ++ message))
  /\ (is_Exception (exn_type e) = true ->
      forall e', str e = Raise e' -> fst r = Raise e')
  /\ (is_Exception (exn_type e) = false -> fst r = Raise e).
Proof.
  intros Hnth Hpre Hx. cbv zeta.
  destruct (nth_error_split entries i Hnth) as (pre & post & -> & Hlen).
  assert (Hfirst : firstn i (pre ++ x :: post) = pre).
  { rewrite <- Hlen. rewrite firstn_app, Nat.sub_diag, firstn_all.
    cbn [firstn]. apply app_nil_r. }
  assert (Hnext : firstn (Datatypes.S i) (pre ++ x :: post) = pre ++ [x]).
  { rewrite <- Hlen. rewrite firstn_app.
    replace (Datatypes.S (List.length pre) - List.length pre)%nat with 1%nat by lia.
    rewrite firstn_all2 by lia. reflexivity. }
  rewrite Hfirst in Hpre. rewrite Hnext.
  destruct (try_except_effects python "Error creating bulk mealplan entries: "
              (create_mealplan_bulk_body mealie python (pre ++ x :: post)) w)
    as [Hc Hf].
  pose proof (try_except_outcome python "Error creating bulk mealplan entries: "
                (create_mealplan_bulk_body mealie python (pre ++ x :: post)) w) as Ho.
  unfold create_mealplan_bulk. rewrite Hc, Hf, Ho.
  rewrite bulk_outcome.
  rewrite (create_each_fails mealie pre post x _ s1 s2 e) by assumption.
  cbn [fst snd calls fetcher].
  split; [reflexivity |]. split; [reflexivity |]. split.
  { destruct (is_Exception (exn_type e)); [| discriminate].
    apply handler_outcome_not_success. }
  unfold handler_outcome. repeat split.
  - intros -> message ->. reflexivity.
  - intros -> e' ->. reflexivity.
  - intros ->. reflexivity.
Qed.

(** Entries [A; B; C] with a fetcher that fails on its second call: one
    call for [A], one for [B], none for [C]; the envelope for a refused
    connection, and an exception for a cancellation and for an error on
    which [str] raises. *)
Lemma create_mealplan_bulk_aborts_witness :
  let r := create_mealplan_bulk (failing_at 1 connection_refused) python3
             [entry_A; entry_B; entry_C] (fresh 0%nat) in
  (calls (snd r) = [create_mealplan_call entry_A; create_mealplan_call entry_B]
   /\ fetcher (snd r) = 2%nat
   /\ fst r <> Return bulk_success_text
   /\ fst r = format_error_response python3
                (py "Error creating bulk mealplan entries: connection refused"))
  /\ fst (create_mealplan_bulk (failing_at 1 unprintable) python3
            [entry_A; entry_B; entry_C] (fresh 0%nat))
     = Raise str_returned_non_string
  /\ fst (create_mealplan_bulk (failing_at 1 cancelled) python3
            [entry_A; entry_B; entry_C] (fresh 0%nat))
     = Raise cancelled.
Proof.
  cbv zeta. split; [| split].
  - destruct (create_mealplan_bulk_aborts (failing_at 1 connection_refused) python3
                [entry_A; entry_B; entry_C] 1 entry_B (fresh 0%nat) 1%nat 2%nat
                connection_refused eq_refl eq_refl eq_refl)
      as (Hcalls & Hstate & Hack & Hreturns & _).
    split; [exact Hcalls |]. split; [exact Hstate |]. split; [exact Hack |].
    exact (Hreturns eq_refl _ eq_refl).
  - destruct (create_mealplan_bulk_aborts (failing_at 1 unprintable) python3
                [entry_A; entry_B; entry_C] 1 entry_B (fresh 0%nat) 1%nat 2%nat
                unprintable eq_refl eq_refl eq_refl)
      as (_ & _ & _ & _ & Hraises & _).
    exact (Hraises eq_refl _ eq_refl).
  - destruct (create_mealplan_bulk_aborts (failing_at 1 cancelled) python3
                [entry_A; entry_B; entry_C] 1 entry_B (fresh 0%nat) 1%nat 2%nat
                cancelled eq_refl eq_refl eq_refl)
      as (_ & _ & _ & _ & _ & Hescapes).
    exact (Hescapes eq_refl).
Defined.

(** C2, as stated, fails: with entries [A; B; C] and the create call for
    [B] failing with [KeyboardInterrupt], the fetcher has received the
    calls for [A] and [B] and none for [C], but the tool returns no error
    envelope: it raises the interrupt. *)
Lemma interrupted_bulk_returns_no_envelope :
  let r := create_mealplan_bulk (failing_at 1 interrupted) python3
             [entry_A; entry_B; entry_C] (fresh 0%nat) in
  answers_all (failing_at 1 interrupted) [create_mealplan_call entry_A] 0%nat
  = Some 1%nat
  /\ failing_at 1 interrupted (create_mealplan_call entry_B) 1%nat
     = (Raise interrupted, 2%nat)
  /\ calls (snd r) = [create_mealplan_call entry_A; create_mealplan_call entry_B]
  /\ fst r = Raise interrupted
  /\ (forall payload, fst r <> Return payload).
Proof. cbv zeta. repeat split; try reflexivity. discriminate. Qed.

(** The outcome of a tool, from the outcome of its [try] block. *)
Lemma run_tool_outcome {S : Type} (mealie : MealieFetcher S)
  (python : interpreter) (t : tool) (w : world S) :
  fst (run_tool mealie python t w)
  = match fst (tool_body mealie python t w) with
    | Return payload => Return payload
    | Raise e =>
        if is_Exception (exn_type e)
        then handler_outcome python (error_prefix t) e
        else Raise e
    end.
Proof.
  destruct t; cbn [run_tool tool_body error_prefix];
    [unfold get_all_mealplans | unfold create_mealplan
     | unfold create_mealplan_bulk | unfold get_todays_mealplan];
    rewrite try_except_outcome; reflexivity.
Qed.

Lemma create_each_raises {S : Type} (mealie : MealieFetcher S)
  (entries : list MealPlanEntry) (w w' : world S) (e : exn) :
  create_each mealie entries w = (Raise e, w') ->
  exists c s s', mealie c s = (Raise e, s').
Proof.
  revert w. induction entries as [| x entries IH]; intros w H.
  - discriminate H.
  - unfold create_each in *. cbn [for_each] in H.
    unfold bind at 1 in H. unfold bind at 1 in H. unfold invoke at 1 in H.
    destruct (mealie (create_mealplan_call x) (fetcher w)) as [[v | e'] s1] eqn:E.
    + cbn [ret] in H. exact (IH _ H).
    + injection H as <- _. eauto.
Qed.

(** An exception leaving the [try] block of a tool was raised by the
    fetcher, or is one of the encoder's. *)
Lemma tool_body_raises {S : Type} (mealie : MealieFetcher S) (python : interpreter)
  (t : tool) (w : world S) (e : exn) :
  fst (tool_body mealie python t w) = Raise e ->
  (exists c s s', mealie c s = (Raise e, s')) \/ encoder_error python e.
Proof.
  assert (Hone : forall info c,
             fst (bind (logger_log INFO info)
                    (fun _ => bind (invoke mealie c)
                                (fun result => lift (json_dumps python result))) w)
             = Raise e ->
             (exists c s s', mealie c s = (Raise e, s')) \/ encoder_error python e).
  { intros info c. rewrite one_call_body.
    destruct (mealie c (fetcher w)) as [[v | e'] s'] eqn:E; cbn [fst]; intros H.
    - right. exact (json_encode_raises python v _ e H).
    - injection H as <-. left. eauto. }
  destruct t; cbn [tool_body]; try apply Hone.
  rewrite bulk_outcome.
  match goal with |- context [create_each mealie entries ?w0] =>
    destruct (create_each mealie entries w0) as [[[] | e'] w'] eqn:E end;
    cbn [fst]; intros H; [discriminate H |].
  injection H as <-. left. exact (create_each_raises mealie entries _ _ _ E).
Qed.

(** C5: when the [try] block of a tool raises an exception with message
    [m], the payload the tool returns is the error envelope whose [error]
    field is ["Error fetching mealplans: "], ["Error creating mealplan
    entry: "], ["Error creating bulk mealplan entries: "] or ["Error
    fetching today's mealplan: "], by tool, followed by [m]; the tool does
    return when the exception is an instance of [Exception]. *)
Theorem error_envelope_message {S : Type} (mealie : MealieFetcher S)
  (python : interpreter) (t : tool) (w : world S) (e : exn) (m : pystr) :
  fst (tool_body mealie python t w) = Raise e ->
  str e = Return m ->
  let message :=
    match t with
    | GetAllMealplans _ _ _ _ => py "Error fetching mealplans: "
    | CreateMealplan _ => py "Error creating mealplan entry: "
    | CreateMealplanBulk _ => py "Error creating bulk mealplan entries: "
    | GetTodaysMealplan => py "Error fetching today's mealplan: "
    end ++ m in
  (is_Exception (exn_type e) = true ->
   exists payload, fst (run_tool mealie python t w) = Return payload)
  /\ (forall payload,
         fst (run_tool mealie python t w) = Return payload ->
         json_dumps python (PyDict [(py "error", PyStr message)]) = Return payload
         /\ dict_get (py "error") [(py "error", PyStr message)] = Some (PyStr message)
         /\ (text message = true ->
             json_loads python payload = Some (PyDict [(py "error", PyStr message)]))).
Proof.
  intros Hbody Hstr. cbv zeta. fold (error_prefix t).
  pose proof (run_tool_outcome mealie python t w) as Hrun.
  rewrite Hbody in Hrun. unfold handler_outcome in Hrun. rewrite Hstr in Hrun. split.
  - intros He. rewrite He in Hrun.
    rewrite format_error_response_returns in Hrun. eauto.
  - intros payload Hp. rewrite Hp in Hrun.
    destruct (is_Exception (exn_type e)); [| discriminate Hrun].
    split; [symmetry; exact Hrun |]. split; [reflexivity |].
    intros Htext.
    destruct (json_loads_dumps python (PyDict [(py "error", PyStr (error_prefix t ++ m))]))
      as (t' & Et & Hl).
    { change (text (error_prefix t ++ m) = true) in Htext.
      cbn [json_representable forallb map fst distinct existsb negb andb].
      rewrite Htext. reflexivity. }
    { reflexivity. }
    unfold format_error_response, error_envelope in Hrun.
    rewrite Et in Hrun. injection Hrun as ->. exact Hl.
Qed.

Lemma error_envelope_message_witness :
  exists payload,
    fst (run_tool (raising_fetcher connection_refused) python3
           GetTodaysMealplan (fresh tt)) = Return payload
    /\ json_dumps python3
         (PyDict [(py "error",
                   PyStr (py "Error fetching today's mealplan: connection refused"))])
       = Return payload.
Proof.
  destruct (error_envelope_message (raising_fetcher connection_refused) python3
              GetTodaysMealplan (fresh tt) connection_refused
              (py "connection refused") eq_refl eq_refl)
    as [Hreturns Hmessage].
  destruct (Hreturns eq_refl) as [payload Hp].
  exists payload. split; [exact Hp | exact (proj1 (Hmessage payload Hp))].
Defined.

(** C1, as the code has it.  When every exception the fetcher raises is an
    instance of [Exception] on which [str] returns, each of the four tools
    returns a payload, and a payload returned after the [try] block failed
    is the error envelope, a JSON object with the key [error].  Whatever
    the fetcher does, an exception of the [try] block that is no instance
    of [Exception] was raised by the fetcher and the tool raises it; and
    when [str] raises on an exception of the [try] block that is an
    instance of [Exception], the fetcher raised that exception and the tool
    raises what [str] raised. *)
Theorem tools_return_or_raise {S : Type} (mealie : MealieFetcher S)
  (python : interpreter) (t : tool) (w : world S) :
  (raises_printable_errors mealie ->
   exists payload,
     fst (run_tool mealie python t w) = Return payload
     /\ (forall e,
            fst (tool_body mealie python t w) = Raise e ->
            exists msg,
              format_error_response python msg = Return payload
              /\ json_dumps python (error_envelope msg) = Return payload
              /\ has_key (py "error") (error_envelope msg) = true))
  /\ (forall e,
         fst (tool_body mealie python t w) = Raise e ->
         is_Exception (exn_type e) = false ->
         fst (run_tool mealie python t w) = Raise e
         /\ exists c s s', mealie c s = (Raise e, s'))
  /\ (forall e e',
         fst (tool_body mealie python t w) = Raise e ->
         is_Exception (exn_type e) = true ->
         str e = Raise e' ->
         fst (run_tool mealie python t w) = Raise e'
         /\ exists c s s', mealie c s = (Raise e, s')).
Proof.
  pose proof (run_tool_outcome mealie python t w) as Hrun.
  split; [| split].
  - intros Herr.
    destruct (fst (tool_body mealie python t w)) as [payload | e] eqn:Hbody.
    + exists payload. split; [exact Hrun | discriminate].
    + assert (He : is_Exception (exn_type e) = true /\ exists m, str e = Return m).
      { destruct (tool_body_raises mealie python t w e Hbody) as [(c & s & s' & H) | H].
        - exact (Herr c s e s' H).
        - exact (encoder_error_printable python e H). }
      destruct He as (He & m & Hm).
      unfold handler_outcome in Hrun.
      rewrite He, Hm, format_error_response_returns in Hrun.
      eexists. split; [exact Hrun |].
      intros e' [= <-]. exists (error_prefix t ++ m).
      repeat split; reflexivity.
  - intros e Hbody He. rewrite Hbody, He in Hrun. split; [exact Hrun |].
    destruct (tool_body_raises mealie python t w e Hbody) as [H | H]; [exact H |].
    destruct (encoder_error_printable python e H) as [He' _]. congruence.
  - intros e e' Hbody He Hstr. rewrite Hbody, He in Hrun.
    unfold handler_outcome in Hrun. rewrite Hstr in Hrun. split; [exact Hrun |].
    destruct (tool_body_raises mealie python t w e Hbody) as [H | H]; [exact H |].
    destruct (encoder_error_printable python e H) as (_ & m & Hm). congruence.
Qed.

(** A refused connection is reported in the envelope; a cancellation
    leaves the tool; so does the [TypeError] of [str]. *)
Lemma tools_return_or_raise_witness :
  (exists payload,
      fst (run_tool (raising_fetcher connection_refused) python3
             (CreateMealplanBulk [entry_A; entry_B]) (fresh tt)) = Return payload
      /\ exists msg,
           format_error_response python3 msg = Return payload
           /\ json_dumps python3 (error_envelope msg) = Return payload
           /\ has_key (py "error") (error_envelope msg) = true)
  /\ fst (run_tool (raising_fetcher cancelled) python3 GetTodaysMealplan (fresh tt))
     = Raise cancelled
  /\ fst (run_tool (raising_fetcher unprintable) python3 (CreateMealplan pasta)
            (fresh tt))
     = Raise str_returned_non_string.
Proof.
  split; [| split].
  - assert (Herr : raises_printable_errors (raising_fetcher connection_refused)).
    { intros c s e s' H. injection H as <- _. split; [reflexivity |].
      eexists. reflexivity. }
    destruct (proj1 (tools_return_or_raise (raising_fetcher connection_refused) python3
                       (CreateMealplanBulk [entry_A; entry_B]) (fresh tt)) Herr)
      as (payload & Hp & Hfail).
    exists payload. split; [exact Hp |].
    exact (Hfail connection_refused eq_refl).
  - exact (proj1 (proj1 (proj2 (tools_return_or_raise (raising_fetcher cancelled) python3
                                  GetTodaysMealplan (fresh tt)))
                    cancelled eq_refl eq_refl)).
  - exact (proj1 (proj2 (proj2 (tools_return_or_raise (raising_fetcher unprintable)
                                  python3 (CreateMealplan pasta) (fresh tt)))
                    unprintable str_returned_non_string eq_refl eq_refl eq_refl)).
Defined.

(** C1, as stated, fails.  A fetcher that raises [KeyboardInterrupt] on any
    call makes each of the four tools raise it to the caller; so does one
    that raises a cancellation, whose class derives from [BaseException]
    only; and with a fetcher that raises an instance of [Exception] whose
    [__str__] returns [None], each tool raises the [TypeError] of [str]
    from its handler. *)
Lemma exceptions_escape :
  (forall e,
      e = interrupted \/ e = cancelled ->
      fst (get_all_mealplans (raising_fetcher e) python3
             None None None None (fresh tt)) = Raise e
      /\ fst (create_mealplan (raising_fetcher e) python3 pasta (fresh tt)) = Raise e
      /\ fst (create_mealplan_bulk (raising_fetcher e) python3 [pasta] (fresh tt))
         = Raise e
      /\ fst (get_todays_mealplan (raising_fetcher e) python3 (fresh tt)) = Raise e)
  /\ is_Exception (exn_type unprintable) = true
  /\ fst (get_all_mealplans (raising_fetcher unprintable) python3
            None None None None (fresh tt)) = Raise str_returned_non_string
  /\ fst (create_mealplan (raising_fetcher unprintable) python3 pasta (fresh tt))
     = Raise str_returned_non_string
  /\ fst (create_mealplan_bulk (raising_fetcher unprintable) python3 [pasta] (fresh tt))
     = Raise str_returned_non_string
  /\ fst (get_todays_mealplan (raising_fetcher unprintable) python3 (fresh tt))
     = Raise str_returned_non_string.
Proof.
  split; [| repeat split; reflexivity].
  intros e [-> | ->]; repeat split; reflexivity.
Qed.

(** * Further properties *)

(** ** What the tools log *)

Lemma create_each_records {S : Type} (mealie : MealieFetcher S)
  (entries : list MealPlanEntry) (w : world S) :
  records (snd (create_each mealie entries w)) = records w.
Proof.
  revert w. induction entries as [| x entries IH]; intros w; [reflexivity |].
  unfold create_each in *. cbn [for_each].
  unfold bind at 1. unfold bind at 1. unfold invoke at 1.
  destruct (mealie (create_mealplan_call x) (fetcher w)) as [[v | e] s1];
    [| reflexivity].
  cbn [ret]. rewrite IH. reflexivity.
Qed.

(** The [try] block of a tool logs its entry record, and nothing else. *)
Lemma tool_body_records {S : Type} (mealie : MealieFetcher S) (python : interpreter)
  (t : tool) (w : world S) :
  records (snd (tool_body mealie python t w)) = records w ++ [(INFO, entry_record t)].
Proof.
  destruct t; cbn [tool_body entry_record].
  - unfold get_all_mealplans_body. rewrite one_call_body.
    match goal with |- context [mealie ?c ?s] =>
      destruct (mealie c s) as [[v | e] s'] end; reflexivity.
  - unfold create_mealplan_body. rewrite one_call_body.
    match goal with |- context [mealie ?c ?s] =>
      destruct (mealie c s) as [[v | e] s'] end; reflexivity.
  - rewrite bulk_outcome.
    match goal with |- context [create_each mealie entries ?w0] =>
      pose proof (create_each_records mealie entries w0) as Hr;
      destruct (create_each mealie entries w0) as [[[] | e] w'] end;
      exact Hr.
  - unfold get_todays_mealplan_body. rewrite one_call_body.
    match goal with |- context [mealie ?c ?s] =>
      destruct (mealie c s) as [[v | e] s'] end; reflexivity.
Qed.

Lemma run_tool_run {S : Type} (mealie : MealieFetcher S)
  (python : interpreter) (t : tool) (w : world S) :
  run_tool mealie python t w
  = match tool_body mealie python t w with
    | (Return payload, w') => (Return payload, w')
    | (Raise e, w') =>
        if is_Exception (exn_type e)
        then match str e with
             | Return message =>
                 (format_error_response python (error_prefix t ++ message),
                  mkWorld (fetcher w') (calls w')
                    (records w' ++ failure_records python (error_prefix t ++ message) e))
             | Raise e' => (Raise e', w')
             end
        else (Raise e, w')
    end.
Proof.
  destruct t; cbn [run_tool tool_body error_prefix];
    [unfold get_all_mealplans | unfold create_mealplan
     | unfold create_mealplan_bulk | unfold get_todays_mealplan];
    apply try_except_run.
Qed.

(** X1: a run of a tool keeps the records logged before it and adds its
    entry record at level INFO; it then adds an ERROR record with the error
    message and a DEBUG record with the traceback exactly when its [try]
    block raised an instance of [Exception] on which [str] returns, and
    nothing otherwise: not on success, not when the exception is let
    through, not when [str] raises on it. *)
Theorem tool_log {S : Type} (mealie : MealieFetcher S)
  (python : interpreter) (t : tool) (w : world S) :
  records (snd (run_tool mealie python t w))
  = records w
    ++ (INFO, entry_record t)
       :: match fst (tool_body mealie python t w) with
          | Return _ => []
          | Raise e =>
              if is_Exception (exn_type e)
              then match str e with
                   | Return message =>
                       [(ERROR, PyDict [(py "message", PyStr (error_prefix t ++ message))]);
                        (DEBUG, PyDict [(py "message", PyStr (py "Error traceback"));
                                        (py "traceback", PyStr (format_exc python e))])]
                   | Raise _ => []
                   end
              else []
          end.
Proof.
  rewrite run_tool_run.
  pose proof (tool_body_records mealie python t w) as Hr.
  destruct (tool_body mealie python t w) as [[payload | e] w']; cbn [fst snd] in *.
  - exact Hr.
  - destruct (is_Exception (exn_type e)); cbn [snd records]; [| exact Hr].
    destruct (str e) as [message | e']; cbn [snd records]; [| exact Hr].
    rewrite Hr, <- app_assoc. reflexivity.
Qed.

(** ** The tools that make one call *)

(** Outcome and effects of a single-call tool, from the fetcher's answer. *)
Lemma single_call_run {S : Type} (mealie : MealieFetcher S)
  (python : interpreter) (t : tool) (c : call) (w : world S) :
  single_call t = Some c ->
  fst (run_tool mealie python t w)
  = match fst (mealie c (fetcher w)) with
    | Return v =>
        match json_dumps python v with
        | Return payload => Return payload
        | Raise e => handler_outcome python (error_prefix t) e
        end
    | Raise e =>
        if is_Exception (exn_type e)
        then handler_outcome python (error_prefix t) e
        else Raise e
    end
  /\ calls_once mealie c w (snd (run_tool mealie python t w)).
Proof.
  destruct t; cbn [single_call]; intros [= <-]; cbn [run_tool error_prefix];
    (split; [apply one_call_outcome | apply one_call_effects]).
Qed.

(** X2: when the fetcher returns a structure JSON represents that is
    within the limits of the interpreter, each of the three single-call
    tools returns text that parses back to exactly that structure. *)
Theorem single_call_tools_roundtrip {S : Type} (mealie : MealieFetcher S)
  (python : interpreter) (t : tool) (c : call) (w : world S) (v : pyval) :
  single_call t = Some c ->
  fst (mealie c (fetcher w)) = Return v ->
  json_representable v = true ->
  within_limits python v = true ->
  exists payload,
    fst (run_tool mealie python t w) = Return payload
    /\ json_loads python payload = Some v.
Proof.
  intros Hc Hv Hrep Hlim.
  destruct (json_loads_dumps python v Hrep Hlim) as (payload & Ep & Hl).
  exists payload. split; [| exact Hl].
  rewrite (proj1 (single_call_run mealie python t c w Hc)), Hv, Ep.
  reflexivity.
Qed.

Lemma single_call_tools_roundtrip_witness :
  exists payload,
    fst (run_tool (constant_fetcher (PyList [sample_page; PyBool false])) python3
           GetTodaysMealplan (fresh tt)) = Return payload
    /\ json_loads python3 payload = Some (PyList [sample_page; PyBool false]).
Proof.
  apply (single_call_tools_roundtrip
           (constant_fetcher (PyList [sample_page; PyBool false])) python3
           GetTodaysMealplan get_todays_mealplan_call (fresh tt)); reflexivity.
Defined.

(** X3: against a fetcher that returns the keyword arguments it was given,
    the payload of [create_mealplan] parses back to the fields of the
    entry, for every entry whose strings are text. *)
Theorem create_mealplan_echoes_entry {S : Type} (mealie : MealieFetcher S)
  (python : interpreter) (entry : MealPlanEntry) (w : world S) :
  fst (mealie (create_mealplan_call entry) (fetcher w))
  = Return (PyDict (kwargs (create_mealplan_call entry))) ->
  text (date entry) = true ->
  json_representable (of_optional_str (recipe_id entry)) = true ->
  json_representable (of_optional_str (title entry)) = true ->
  text (entry_type entry) = true ->
  exists payload,
    fst (create_mealplan mealie python entry w) = Return payload
    /\ json_loads python payload
       = Some (PyDict [(py "date", PyStr (date entry));
                       (py "recipe_id", of_optional_str (recipe_id entry));
                       (py "title", of_optional_str (title entry));
                       (py "entry_type", PyStr (entry_type entry))]).
Proof.
  intros Hv Hd Hr Ht He.
  destruct (json_loads_dumps python (PyDict (model_dump entry))) as (payload & Ep & Hl).
  { unfold model_dump.
    cbn [json_representable forallb map fst distinct].
    rewrite Hd, Hr, Ht, He. reflexivity. }
  { unfold model_dump. destruct (recipe_id entry), (title entry); reflexivity. }
  exists payload. split; [| exact Hl].
  unfold create_mealplan, create_mealplan_body.
  rewrite one_call_outcome, Hv. cbn [outcome_of_answer kwargs create_mealplan_call].
  rewrite Ep. reflexivity.
Qed.

Lemma create_mealplan_echoes_entry_witness :
  exists payload,
    fst (create_mealplan echo_fetcher python3 salad (fresh tt)) = Return payload
    /\ json_loads python3 payload
       = Some (PyDict [(py "date", PyStr (date salad));
                       (py "recipe_id", of_optional_str (recipe_id salad));
                       (py "title", of_optional_str (title salad));
                       (py "entry_type", PyStr (entry_type salad))]).
Proof.
  apply (create_mealplan_echoes_entry echo_fetcher python3 salad (fresh tt));
    reflexivity.
Defined.

(** The encoder returns only on a value that holds no object without a
    JSON encoding. *)
Lemma json_encode_returns_serializable (python : interpreter) (v : pyval)
  (depth : nat) (out : pystr) :
  json_encode python v depth = Return out -> serializable v = true.
Proof.
  revert depth out. induction v using pyval_nested_ind; intros depth out;
    cbn [json_encode serializable]; try reflexivity.
  - destruct depth as [| depth]; [discriminate |].
    assert (Hitems : forall cs,
               encode_items (fun x => json_encode python x depth) l = Return cs ->
               forallb serializable l = true).
    { induction H as [| x l Hx Hl IH]; intros cs; cbn [encode_items forallb];
        [reflexivity |].
      destruct (json_encode python x depth) eqn:Ex; [| discriminate].
      destruct (encode_items (fun x => json_encode python x depth) l) eqn:El;
        [| discriminate].
      intros _. rewrite (Hx _ _ Ex), (IH _ eq_refl). reflexivity. }
    destruct (encode_items (fun x => json_encode python x depth) l) eqn:El;
      [| discriminate].
    intros _. exact (Hitems _ eq_refl).
  - destruct depth as [| depth]; [discriminate |].
    fold (encode_pair python depth).
    assert (Hitems : forall cs,
               encode_items (encode_pair python depth) d = Return cs ->
               forallb (fun kv => match kv with (_, x) => serializable x end) d = true).
    { induction H as [| [k x] d Hx Hd IH]; intros cs;
        cbn [encode_items encode_pair forallb]; [reflexivity |].
      cbn [snd] in Hx.
      destruct (json_encode python x depth) eqn:Ex; [| discriminate].
      destruct (encode_items (encode_pair python depth) d) eqn:Ed; [| discriminate].
      intros _. rewrite (Hx _ _ Ex), (IH _ eq_refl). reflexivity. }
    destruct (encode_items (encode_pair python depth) d) eqn:Ed; [| discriminate].
    intros _. exact (Hitems _ eq_refl).
  - discriminate.
Qed.

(** X4: when the fetcher answers the call of a single-call tool with a
    value that holds an object without a JSON encoding, the encoder raises
    one of its exceptions (the [TypeError] for the object, unless an
    oversized integer or too deep a nesting comes before it), and the tool
    returns the error envelope of that exception, although the call has
    been sent and answered: the fetcher keeps the state the call left it
    in (for [create_mealplan], the entry it created). *)
Theorem unserializable_result_reported_after_call {S : Type}
  (mealie : MealieFetcher S) (python : interpreter) (t : tool) (c : call)
  (w : world S) (v : pyval) (s' : S) :
  single_call t = Some c ->
  mealie c (fetcher w) = (Return v, s') ->
  serializable v = false ->
  exists e message,
    json_dumps python v = Raise e
    /\ encoder_error python e
    /\ str e = Return message
    /\ fst (run_tool mealie python t w)
       = format_error_response python (error_prefix t ++ message)
    /\ calls (snd (run_tool mealie python t w)) = calls w ++ [c]
    /\ fetcher (snd (run_tool mealie python t w)) = s'.
Proof.
  intros Hc Hv Hs.
  destruct (single_call_run mealie python t c w Hc) as [Hout [Hcalls Hstate]].
  rewrite Hv in Hout, Hstate. cbn [fst snd] in Hout, Hstate.
  destruct (json_dumps python v) as [p | e] eqn:E.
  - rewrite (json_encode_returns_serializable python v _ p E) in Hs. discriminate Hs.
  - pose proof (json_encode_raises python v _ e E) as Herr.
    destruct (encoder_error_printable python e Herr) as (_ & message & Hm).
    unfold handler_outcome in Hout. rewrite Hm in Hout.
    exists e, message. repeat split; assumption.
Qed.

Lemma unserializable_result_reported_after_call_witness :
  exists e message,
    json_dumps python3 (PyList [PyInt 1; a_datetime]) = Raise e
    /\ encoder_error python3 e
    /\ str e = Return message
    /\ fst (run_tool unserializable_fetcher python3 (CreateMealplan salad) (fresh 0%nat))
       = format_error_response python3 (error_prefix (CreateMealplan salad) ++ message)
    /\ calls (snd (run_tool unserializable_fetcher python3 (CreateMealplan salad)
                     (fresh 0%nat)))
       = [create_mealplan_call salad]
    /\ fetcher (snd (run_tool unserializable_fetcher python3 (CreateMealplan salad)
                       (fresh 0%nat))) = 1%nat.
Proof.
  apply (unserializable_result_reported_after_call unserializable_fetcher python3
           (CreateMealplan salad) (create_mealplan_call salad) (fresh 0%nat)
           (PyList [PyInt 1; a_datetime]) 1%nat); reflexivity.
Defined.

(** X12: when the fetcher returns, whatever the value, a single-call tool
    returns a payload and raises nothing: the JSON text of the value when
    the encoder writes it, and otherwise the error envelope of the
    exception the encoder raised. *)
Theorem answered_calls_never_raise {S : Type} (mealie : MealieFetcher S)
  (python : interpreter) (t : tool) (c : call) (w : world S) (v : pyval) :
  single_call t = Some c ->
  fst (mealie c (fetcher w)) = Return v ->
  exists payload,
    fst (run_tool mealie python t w) = Return payload
    /\ (json_dumps python v = Return payload
        \/ exists e message,
             json_dumps python v = Raise e
             /\ str e = Return message
             /\ format_error_response python (error_prefix t ++ message)
                = Return payload).
Proof.
  intros Hc Hv.
  rewrite (proj1 (single_call_run mealie python t c w Hc)), Hv.
  destruct (json_dumps python v) as [payload | e] eqn:E.
  - exists payload. split; [reflexivity | left; reflexivity].
  - destruct (encoder_error_printable python e (json_encode_raises python v _ e E))
      as (_ & message & Hm).
    unfold handler_outcome. rewrite Hm, format_error_response_returns.
    eexists. split; [reflexivity |]. right. exists e, message.
    rewrite format_error_response_returns. auto.
Qed.

(** An integer of 4301 digits is answered with the envelope of the
    encoder's [ValueError]. *)
Lemma answered_calls_never_raise_witness :
  exists payload,
    fst (run_tool (constant_fetcher huge_int) python3 GetTodaysMealplan (fresh tt))
    = Return payload
    /\ (json_dumps python3 huge_int = Return payload
        \/ exists e message,
             json_dumps python3 huge_int = Raise e
             /\ str e = Return message
             /\ format_error_response python3
                  (error_prefix GetTodaysMealplan ++ message)
                = Return payload).
Proof.
  apply (answered_calls_never_raise (constant_fetcher huge_int) python3
           GetTodaysMealplan get_todays_mealplan_call (fresh tt) huge_int);
    reflexivity.
Defined.

(** ** The bulk tool *)

Lemma create_each_step {S : Type} (mealie : MealieFetcher S)
  (x : MealPlanEntry) (entries : list MealPlanEntry) (w : world S) :
  create_each mealie (x :: entries) w
  = match mealie (create_mealplan_call x) (fetcher w) with
    | (Return _, s1) =>
        create_each mealie entries
          (mkWorld s1 (calls w ++ [create_mealplan_call x]) (records w))
    | (Raise e, s1) =>
        (Raise e, mkWorld s1 (calls w ++ [create_mealplan_call x]) (records w))
    end.
Proof.
  unfold create_each. cbn [for_each].
  unfold bind at 1. unfold bind at 1. unfold invoke at 1.
  destruct (mealie (create_mealplan_call x) (fetcher w)) as [[v | e] s1]; reflexivity.
Qed.

Lemma create_each_prefix {S : Type} (mealie : MealieFetcher S)
  (entries : list MealPlanEntry) (w : world S) :
  exists k,
    (k <= List.length entries)%nat
    /\ calls (snd (create_each mealie entries w))
       = calls w ++ map create_mealplan_call (firstn k entries)
    /\ (forall u, fst (create_each mealie entries w) = Return u ->
                  k = List.length entries).
Proof.
  revert w. induction entries as [| x entries IH]; intros w.
  - exists 0%nat. cbn. rewrite app_nil_r. repeat split; auto.
  - rewrite create_each_step.
    destruct (mealie (create_mealplan_call x) (fetcher w)) as [[v | e] s1].
    + destruct (IH (mkWorld s1 (calls w ++ [create_mealplan_call x]) (records w)))
        as (k & Hk & Hcalls & Hall).
      exists (Datatypes.S k). cbn [List.length firstn map calls] in *.
      split; [lia |]. split.
      * rewrite Hcalls, <- app_assoc. reflexivity.
      * intros u Hu. f_equal. exact (Hall u Hu).
    + exists 1%nat. cbn [List.length firstn map fst snd calls].
      split; [lia |]. split; [reflexivity | discriminate].
Qed.

(** X5: whatever the fetcher does, the create calls [create_mealplan_bulk]
    has sent are those of a prefix of the entries, in order: never a call
    out of sequence, never two for one entry, never more than entries; and
    the acknowledgement is returned only after a call for every entry. *)
Theorem create_mealplan_bulk_calls_prefix {S : Type} (mealie : MealieFetcher S)
  (python : interpreter) (entries : list MealPlanEntry) (w : world S) :
  exists k,
    (k <= List.length entries)%nat
    /\ calls (snd (create_mealplan_bulk mealie python entries w))
       = calls w ++ map create_mealplan_call (firstn k entries)
    /\ (fst (create_mealplan_bulk mealie python entries w) = Return bulk_success_text ->
        k = List.length entries).
Proof.
  destruct (try_except_effects python "Error creating bulk mealplan entries: "
              (create_mealplan_bulk_body mealie python entries) w) as [Hc _].
  pose proof (try_except_outcome python "Error creating bulk mealplan entries: "
                (create_mealplan_bulk_body mealie python entries) w) as Ho.
  unfold create_mealplan_bulk. rewrite Hc, Ho. clear Hc Ho.
  rewrite bulk_outcome.
  match goal with |- context [create_each mealie entries ?w0] =>
    destruct (create_each_prefix mealie entries w0) as (k & Hk & Hcalls & Hall);
    destruct (create_each mealie entries w0) as [[[] | e] w'] end;
    cbn [fst snd calls] in *; exists k; split; try exact Hk; split; try exact Hcalls.
  - intros _. exact (Hall tt eq_refl).
  - destruct (is_Exception (exn_type e)); [| discriminate].
    intros H. exfalso. exact (handler_outcome_not_success python _ e H).
Qed.

Lemma create_mealplan_returns {S : Type} (mealie : MealieFetcher S)
  (python : interpreter) (entry : MealPlanEntry) (w : world S)
  (v : pyval) (s' : S) :
  mealie (create_mealplan_call entry) (fetcher w) = (Return v, s') ->
  exists payload w',
    create_mealplan mealie python entry w = (Return payload, w')
    /\ calls w' = calls w ++ [create_mealplan_call entry]
    /\ fetcher w' = s'.
Proof.
  intros Hv.
  destruct (single_call_run mealie python (CreateMealplan entry)
              (create_mealplan_call entry) w eq_refl) as [Hout [Hcalls Hstate]].
  cbn [run_tool] in *. rewrite Hv in Hout, Hstate. cbn [fst snd] in *.
  destruct (create_mealplan mealie python entry w) as [o w'].
  cbn [fst snd] in *. subst o.
  destruct (json_dumps python v) as [p | e] eqn:E.
  - exists p, w'. auto.
  - destruct (encoder_error_printable python e (json_encode_raises python v _ e E))
      as (_ & message & Hm).
    unfold handler_outcome. rewrite Hm, format_error_response_returns.
    eexists; exists w'. auto.
Qed.

Lemma create_one_by_one_all {S : Type} (mealie : MealieFetcher S)
  (python : interpreter) (entries : list MealPlanEntry) (w : world S) (s' : S) :
  answers_all mealie (map create_mealplan_call entries) (fetcher w) = Some s' ->
  fst (create_one_by_one mealie python entries w) = Return tt
  /\ calls (snd (create_one_by_one mealie python entries w))
     = calls w ++ map create_mealplan_call entries
  /\ fetcher (snd (create_one_by_one mealie python entries w)) = s'.
Proof.
  revert w. induction entries as [| x entries IH]; intros w H.
  - cbn in H. injection H as <-. cbn. rewrite app_nil_r. auto.
  - cbn [map answers_all] in H.
    destruct (mealie (create_mealplan_call x) (fetcher w)) as [[v | e] s1] eqn:Ex;
      [| discriminate].
    destruct (create_mealplan_returns mealie python x w v s1 Ex)
      as (payload & w1 & Hrun & Hcalls & Hstate).
    assert (Hstep : create_one_by_one mealie python (x :: entries) w
                    = create_one_by_one mealie python entries w1).
    { unfold create_one_by_one. cbn [for_each].
      unfold bind at 1. unfold bind at 1. rewrite Hrun. reflexivity. }
    rewrite Hstep. rewrite <- Hstate in H. destruct (IH w1 H) as (Hout & Hc & Hf).
    rewrite Hout, Hc, Hf, Hcalls. cbn [map]. rewrite <- app_assoc. auto.
Qed.

(** X6: when the fetcher returns on the create call of every entry, the
    bulk tool has the same effect on the fetcher as running
    [create_mealplan] on each entry in turn: the same calls in the same
    order, and the same final state. *)
Theorem create_mealplan_bulk_as_single_creates {S : Type} (mealie : MealieFetcher S)
  (python : interpreter) (entries : list MealPlanEntry) (w : world S) (s' : S) :
  answers_all mealie (map create_mealplan_call entries) (fetcher w) = Some s' ->
  calls (snd (create_mealplan_bulk mealie python entries w))
  = calls (snd (create_one_by_one mealie python entries w))
  /\ fetcher (snd (create_mealplan_bulk mealie python entries w))
     = fetcher (snd (create_one_by_one mealie python entries w))
  /\ fst (create_one_by_one mealie python entries w) = Return tt.
Proof.
  intros H.
  destruct (create_one_by_one_all mealie python entries w s' H) as (Hout & Hc & Hf).
  rewrite Hout, Hc, Hf.
  destruct (try_except_effects python "Error creating bulk mealplan entries: "
              (create_mealplan_bulk_body mealie python entries) w) as [Hcb Hfb].
  unfold create_mealplan_bulk. rewrite Hcb, Hfb, bulk_outcome.
  rewrite (create_each_all mealie entries _ s') by exact H.
  repeat split; reflexivity.
Qed.

Lemma create_mealplan_bulk_as_single_creates_witness :
  calls (snd (create_mealplan_bulk unserializable_fetcher python3
                [entry_A; salad; entry_C] (fresh 0%nat)))
  = calls (snd (create_one_by_one unserializable_fetcher python3
                  [entry_A; salad; entry_C] (fresh 0%nat)))
  /\ fetcher (snd (create_mealplan_bulk unserializable_fetcher python3
                     [entry_A; salad; entry_C] (fresh 0%nat)))
     = fetcher (snd (create_one_by_one unserializable_fetcher python3
                       [entry_A; salad; entry_C] (fresh 0%nat)))
  /\ fst (create_one_by_one unserializable_fetcher python3
            [entry_A; salad; entry_C] (fresh 0%nat)) = Return tt.
Proof.
  apply (create_mealplan_bulk_as_single_creates unserializable_fetcher python3
           [entry_A; salad; entry_C] (fresh 0%nat) 3%nat).
  reflexivity.
Defined.

(** ** The text of the payloads *)

Lemma hexdigit_printable (d : N) : d < 16 -> printable (hexdigit d) = true.
Proof.
  intros H. unfold printable, hexdigit.
  destruct (N.ltb_spec d 10); apply andb_true_iff; split; apply N.leb_le; lia.
Qed.

Lemma format_04x_printable (n : N) :
  n < 65536 -> forallb printable (format_04x n) = true.
Proof.
  intros H. unfold format_04x. cbn [forallb].
  rewrite !hexdigit_printable; try reflexivity; try (apply N.mod_lt; lia).
  apply N.Div0.div_lt_upper_bound. lia.
Qed.

Lemma surrogate_half_bound (a y : N) :
  a < 64 -> N.lor (N.shiftl a 10) (N.land y 1023) < 65536.
Proof.
  intros Ha.
  assert (Hy : N.land y 1023 < 1024).
  { change 1023 with (N.ones 10). rewrite N.land_ones. apply N.mod_lt. discriminate. }
  rewrite lor_shiftl_10 by exact Hy.
  generalize dependent (N.land y 1023). intros b Hb. lia.
Qed.

Lemma escape_char_printable (c : N) : forallb printable (escape_char c) = true.
Proof.
  unfold escape_char.
  destruct (N.eqb_spec c 92); [reflexivity |].
  destruct (N.eqb_spec c 34); [reflexivity |].
  destruct (N.eqb_spec c 8); [reflexivity |].
  destruct (N.eqb_spec c 12); [reflexivity |].
  destruct (N.eqb_spec c 10); [reflexivity |].
  destruct (N.eqb_spec c 13); [reflexivity |].
  destruct (N.eqb_spec c 9); [reflexivity |].
  destruct ((32 <=? c) && (c <=? 126)) eqn:Hp.
  - cbn [forallb]. unfold printable. rewrite Hp. reflexivity.
  - destruct (N.ltb_spec c 65536) as [Hlt | Hge].
    + cbn [forallb]. rewrite format_04x_printable by exact Hlt. reflexivity.
    + cbv zeta. rewrite forallb_app. cbn [forallb].
      change 55296 with (N.shiftl 54 10). change 56320 with (N.shiftl 55 10).
      rewrite !format_04x_printable by (apply surrogate_half_bound; lia).
      reflexivity.
Qed.

Lemma encode_basestring_ascii_printable (s : pystr) :
  forallb printable (encode_basestring_ascii s) = true.
Proof.
  unfold encode_basestring_ascii. cbn [forallb]. rewrite forallb_app.
  cbn [forallb]. rewrite andb_true_r. change (printable 34) with true. cbn [andb].
  induction s as [| c s IH]; [reflexivity |].
  cbn [flat_map]. rewrite forallb_app, escape_char_printable, IH. reflexivity.
Qed.

Lemma uint_chars_printable (u : Decimal.uint) : forallb printable (uint_chars u) = true.
Proof.
  induction u; cbn [uint_chars forallb]; try reflexivity; rewrite IHu; reflexivity.
Qed.

Lemma int_repr_printable (z : Z) : forallb printable (int_repr z) = true.
Proof.
  destruct z; cbn [int_repr forallb]; try reflexivity;
    rewrite uint_chars_printable; reflexivity.
Qed.

Lemma floatstr_printable (f : pyfloat) : forallb printable (floatstr f) = true.
Proof.
  destruct f as [neg i frac e | [|] |]; try reflexivity.
  cbn [floatstr float_repr]. rewrite !forallb_app, uint_chars_printable.
  assert (Hsign : forallb printable (if neg then [45] else []) = true)
    by (destruct neg; reflexivity).
  assert (Hfrac : forallb printable
                    match frac with
                    | Decimal.Nil => []
                    | _ => 46 :: uint_chars frac
                    end = true).
  { destruct frac; try reflexivity; cbn [forallb];
      rewrite uint_chars_printable; reflexivity. }
  assert (Hexp : forallb printable
                   match e with Some z => exponent_repr z | None => [] end = true).
  { destruct e as [z |]; [| reflexivity]. unfold exponent_repr.
    destruct (exponent_digits (Z.abs_N z)) as (u & _ & ->).
    cbn [forallb]. rewrite uint_chars_printable.
    destruct (z <? 0)%Z; reflexivity. }
  rewrite Hsign, Hfrac, Hexp. reflexivity.
Qed.

Lemma join_printable (chunks : list pystr) :
  forallb (forallb printable) chunks = true ->
  forallb printable (join item_separator chunks) = true.
Proof.
  induction chunks as [| c chunks IH]; [reflexivity |].
  cbn [forallb]. intros H. apply andb_true_iff in H as [Hc Hcs].
  destruct chunks as [| c' chunks]; [exact Hc |].
  change (join item_separator (c :: c' :: chunks))
    with (c ++ item_separator ++ join item_separator (c' :: chunks)).
  rewrite !forallb_app, Hc, (IH Hcs). reflexivity.
Qed.

(** Every text the encoder returns is printable ASCII. *)
Lemma json_encode_printable (python : interpreter) (v : pyval) (depth : nat)
  (out : pystr) :
  json_encode python v depth = Return out -> forallb printable out = true.
Proof.
  revert depth out. induction v using pyval_nested_ind; intros depth out;
    cbn [json_encode].
  - intros [= <-]. reflexivity.
  - destruct b; intros [= <-]; reflexivity.
  - destruct (exceeds_limit python (int_digits z)); [discriminate |].
    intros [= <-]. apply int_repr_printable.
  - intros [= <-]. apply floatstr_printable.
  - intros [= <-]. apply encode_basestring_ascii_printable.
  - destruct depth as [| depth]; [discriminate |].
    assert (Hitems : forall cs,
               encode_items (fun x => json_encode python x depth) l = Return cs ->
               forallb (forallb printable) cs = true).
    { induction H as [| x l Hx Hl IH]; intros cs; cbn [encode_items].
      - intros [= <-]. reflexivity.
      - destruct (json_encode python x depth) eqn:Ex; [| discriminate].
        destruct (encode_items (fun x => json_encode python x depth) l) eqn:El;
          [| discriminate].
        intros [= <-]. cbn [forallb]. rewrite (Hx _ _ Ex), (IH _ eq_refl).
        reflexivity. }
    destruct (encode_items (fun x => json_encode python x depth) l) as [cs |] eqn:El;
      [| discriminate].
    intros [= <-]. cbn [forallb]. rewrite forallb_app.
    rewrite (join_printable cs (Hitems cs eq_refl)). reflexivity.
  - destruct depth as [| depth]; [discriminate |].
    fold (encode_pair python depth).
    assert (Hitems : forall cs,
               encode_items (encode_pair python depth) d = Return cs ->
               forallb (forallb printable) cs = true).
    { induction H as [| [k x] d Hx Hd IH]; intros cs; cbn [encode_items encode_pair].
      - intros [= <-]. reflexivity.
      - cbn [snd] in Hx.
        destruct (json_encode python x depth) as [cx |] eqn:Ex; [| discriminate].
        destruct (encode_items (encode_pair python depth) d) as [cs0 |] eqn:Ed;
          [| discriminate].
        intros [= <-].
        change (forallb printable (encode_basestring_ascii k ++ key_separator ++ cx)
                && forallb (forallb printable) cs0 = true).
        rewrite !forallb_app, encode_basestring_ascii_printable.
        rewrite (Hx _ _ Ex), (IH _ eq_refl). reflexivity. }
    destruct (encode_items (encode_pair python depth) d) as [cs |] eqn:Ed;
      [| discriminate].
    intros [= <-]. cbn [forallb]. rewrite forallb_app.
    rewrite (join_printable cs (Hitems cs eq_refl)). reflexivity.
  - discriminate.
Qed.

(** A payload leaving the [try] block of a tool is text of the encoder. *)
Lemma tool_body_returns_encoded {S : Type} (mealie : MealieFetcher S)
  (python : interpreter) (t : tool) (w : world S) (payload : pystr) :
  fst (tool_body mealie python t w) = Return payload ->
  exists v, json_dumps python v = Return payload.
Proof.
  assert (Hone : forall info c,
             fst (bind (logger_log INFO info)
                    (fun _ => bind (invoke mealie c)
                                (fun result => lift (json_dumps python result))) w)
             = Return payload ->
             exists v, json_dumps python v = Return payload).
  { intros info c. rewrite one_call_body.
    destruct (mealie c (fetcher w)) as [[v | e] s']; cbn [fst]; intros H;
      [eauto | discriminate]. }
  destruct t; cbn [tool_body]; try apply Hone.
  rewrite bulk_outcome.
  match goal with |- context [create_each mealie entries ?w0] =>
    destruct (create_each mealie entries w0) as [[[] | e] w'] end;
    cbn [fst]; intros H; [| discriminate].
  injection H as <-. exists bulk_success. reflexivity.
Qed.

(** X7: the payload a tool returns from its [try] block, the serialized
    result of the fetcher or the acknowledgement, is made of printable
    ASCII characters only: whatever the strings of the fetcher's result
    hold, control and non-ASCII characters leave escaped. *)
Theorem serialized_results_are_printable_ascii {S : Type} (mealie : MealieFetcher S)
  (python : interpreter) (t : tool) (w : world S) (payload : pystr) :
  fst (tool_body mealie python t w) = Return payload ->
  fst (run_tool mealie python t w) = Return payload
  /\ forallb printable payload = true.
Proof.
  intros Hbody. split.
  - rewrite run_tool_outcome, Hbody. reflexivity.
  - destruct (tool_body_returns_encoded mealie python t w payload Hbody) as [v Hv].
    exact (json_encode_printable python v _ payload Hv).
Qed.

(** A page whose title holds an accented letter and a character beyond the
    basic plane. *)
Lemma serialized_results_are_printable_ascii_witness :
  exists payload,
    fst (run_tool (constant_fetcher sample_page) python3 GetTodaysMealplan (fresh tt))
    = Return payload
    /\ forallb printable payload = true.
Proof.
  eexists.
  apply (serialized_results_are_printable_ascii (constant_fetcher sample_page) python3
           GetTodaysMealplan (fresh tt)).
  reflexivity.
Defined.

(** ** Telling outcomes apart *)

(** X8: the payload of a single-call tool determines the structure the
    fetcher returned: two runs, of any of the three tools against any
    fetchers, that return the same payload for structures JSON represents
    within the limits of the interpreter were given the same structure. *)
Theorem payload_determines_result {S1 S2 : Type}
  (mealie1 : MealieFetcher S1) (mealie2 : MealieFetcher S2)
  (python : interpreter) (t1 t2 : tool) (c1 c2 : call)
  (w1 : world S1) (w2 : world S2) (v1 v2 : pyval) :
  single_call t1 = Some c1 ->
  single_call t2 = Some c2 ->
  fst (mealie1 c1 (fetcher w1)) = Return v1 ->
  fst (mealie2 c2 (fetcher w2)) = Return v2 ->
  json_representable v1 = true ->
  json_representable v2 = true ->
  within_limits python v1 = true ->
  within_limits python v2 = true ->
  fst (run_tool mealie1 python t1 w1) = fst (run_tool mealie2 python t2 w2) ->
  v1 = v2.
Proof.
  intros Hc1 Hc2 Hv1 Hv2 Hr1 Hr2 Hl1 Hl2 Heq.
  destruct (json_loads_dumps python v1 Hr1 Hl1) as (p1 & E1 & L1).
  destruct (json_loads_dumps python v2 Hr2 Hl2) as (p2 & E2 & L2).
  rewrite (proj1 (single_call_run mealie1 python t1 c1 w1 Hc1)), Hv1, E1 in Heq.
  rewrite (proj1 (single_call_run mealie2 python t2 c2 w2 Hc2)), Hv2, E2 in Heq.
  injection Heq as ->. rewrite L1 in L2. injection L2 as ->. reflexivity.
Qed.

Lemma payload_determines_result_witness :
  PyDict (kwargs (create_mealplan_call salad)) = PyDict (model_dump salad).
Proof.
  apply (payload_determines_result echo_fetcher (constant_fetcher (PyDict (model_dump salad)))
           python3 (CreateMealplan salad) GetTodaysMealplan
           (create_mealplan_call salad) get_todays_mealplan_call (fresh tt) (fresh tt));
    reflexivity.
Defined.

Lemma create_each_returns_iff {S : Type} (mealie : MealieFetcher S)
  (entries : list MealPlanEntry) (w : world S) :
  fst (create_each mealie entries w) = Return tt
  <-> exists s', answers_all mealie (map create_mealplan_call entries) (fetcher w) = Some s'.
Proof.
  revert w. induction entries as [| x entries IH]; intros w.
  - cbn. split; eauto.
  - rewrite create_each_step. cbn [map answers_all].
    destruct (mealie (create_mealplan_call x) (fetcher w)) as [[v | e] s1].
    + rewrite IH. cbn [fetcher]. reflexivity.
    + cbn [fst]. split; [discriminate | intros [s' H]; discriminate H].
Qed.

(** X10: [create_mealplan_bulk] returns the acknowledgement exactly when
    the fetcher returns on the create call of every entry: a run in which
    some call raised is never acknowledged, a run in which none did always
    is. *)
Theorem create_mealplan_bulk_acknowledges_iff {S : Type} (mealie : MealieFetcher S)
  (python : interpreter) (entries : list MealPlanEntry) (w : world S) :
  fst (create_mealplan_bulk mealie python entries w) = Return bulk_success_text
  <-> exists s', answers_all mealie (map create_mealplan_call entries) (fetcher w) = Some s'.
Proof.
  pose proof (try_except_outcome python "Error creating bulk mealplan entries: "
                (create_mealplan_bulk_body mealie python entries) w) as Ho.
  unfold create_mealplan_bulk. rewrite Ho. clear Ho.
  rewrite bulk_outcome.
  match goal with |- context [create_each mealie entries ?w0] =>
    pose proof (create_each_returns_iff mealie entries w0) as Hiff;
    destruct (create_each mealie entries w0) as [[[] | e] w'] end;
    cbn [fst fetcher] in *.
  - split; [intros _; apply Hiff; reflexivity | reflexivity].
  - split.
    + destruct (is_Exception (exn_type e)); [| discriminate].
      intros H. exfalso. exact (handler_outcome_not_success python _ e H).
    + intros H. apply Hiff in H. discriminate H.
Qed.

(** X11: a tool raises nothing that does not come from the fetcher.  An
    exception that leaves a tool either was raised by the fetcher on some
    call and is no instance of [Exception], or was raised by [str] on an
    instance of [Exception] that the fetcher raised on some call. *)
Theorem tools_raise_only_what_the_fetcher_raised {S : Type}
  (mealie : MealieFetcher S) (python : interpreter) (t : tool)
  (w : world S) (e : exn) :
  fst (run_tool mealie python t w) = Raise e ->
  (is_Exception (exn_type e) = false
   /\ exists c s s', mealie c s = (Raise e, s'))
  \/ (exists e0 c s s',
         mealie c s = (Raise e0, s')
         /\ is_Exception (exn_type e0) = true
         /\ str e0 = Raise e).
Proof.
  rewrite run_tool_outcome.
  destruct (fst (tool_body mealie python t w)) as [p | e0] eqn:Hbody; [discriminate |].
  destruct (tool_body_raises mealie python t w e0 Hbody) as [Hfetched | Hencoder].
  - destruct (is_Exception (exn_type e0)) eqn:He.
    + unfold handler_outcome. destruct (str e0) as [message | e'] eqn:Hstr.
      * rewrite format_error_response_returns. discriminate.
      * intros [= ->]. right. destruct Hfetched as (c & s & s' & H).
        exists e0, c, s, s'. auto.
    + intros [= ->]. left. auto.
  - destruct (encoder_error_printable python e0 Hencoder) as (He & message & Hm).
    rewrite He. unfold handler_outcome. rewrite Hm, format_error_response_returns.
    discriminate.
Qed.

Lemma tools_raise_only_what_the_fetcher_raised_witness :
  (is_Exception (exn_type str_returned_non_string) = false
   /\ exists c s s',
        failing_at 1 unprintable c s = (Raise str_returned_non_string, s'))
  \/ (exists e0 c s s',
         failing_at 1 unprintable c s = (Raise e0, s')
         /\ is_Exception (exn_type e0) = true
         /\ str e0 = Raise str_returned_non_string).
Proof.
  apply (tools_raise_only_what_the_fetcher_raised (failing_at 1 unprintable) python3
           (CreateMealplanBulk [entry_A; entry_B; entry_C]) (fresh 0%nat)
           str_returned_non_string).
  reflexivity.
Defined.

(** ** The further properties on concrete runs *)

(** With the second of three create calls failing, the calls sent are
    those of the first two entries. *)
Lemma create_mealplan_bulk_calls_prefix_witness :
  exists k,
    (k <= 3)%nat
    /\ calls (snd (create_mealplan_bulk (failing_at 1 connection_refused) python3
                     [entry_A; entry_B; entry_C] (fresh 0%nat)))
       = map create_mealplan_call (firstn k [entry_A; entry_B; entry_C])
    /\ k <> 3%nat.
Proof.
  destruct (create_mealplan_bulk_calls_prefix (failing_at 1 connection_refused)
              python3 [entry_A; entry_B; entry_C] (fresh 0%nat))
    as (k & Hk & Hcalls & Hack).
  exists k. split; [exact Hk |]. split; [exact Hcalls |].
  intros ->. discriminate Hcalls.
Defined.

(** Three entries against the echoing fetcher are acknowledged; with the
    second call failing they are not. *)
Lemma create_mealplan_bulk_acknowledges_iff_witness :
  fst (create_mealplan_bulk echo_fetcher python3
         [entry_A; entry_B; entry_C] (fresh tt)) = Return bulk_success_text
  /\ fst (create_mealplan_bulk (failing_at 1 connection_refused) python3
            [entry_A; entry_B; entry_C] (fresh 0%nat)) <> Return bulk_success_text.
Proof.
  split.
  - apply (proj2 (create_mealplan_bulk_acknowledges_iff echo_fetcher python3
                    [entry_A; entry_B; entry_C] (fresh tt))).
    exists tt. reflexivity.
  - intros H.
    apply (proj1 (create_mealplan_bulk_acknowledges_iff
                    (failing_at 1 connection_refused) python3
                    [entry_A; entry_B; entry_C] (fresh 0%nat))) in H.
    destruct H as [s' H]. discriminate H.
Defined.
